(** * CarPlay process supervisor: a shallow embedding of
    [src/modules/carplay_module.py] (class [CarPlayManager]).

    The Python object [self] becomes the record [Manager]; everything the
    class reaches outside of itself (the file system, [os.environ], the
    named pipe, the [lsusb] listing, the processes it launches and the
    signals it sends them) becomes the record [World].  Every method is a
    computation in a small state-and-exception monad over the pair
    [(Manager, World)].  What the operating system answers during one call
    (does [Popen] raise, is the child still alive after the grace period,
    does [wait] time out, ...) is an explicit argument of that call.

    Scope of the model.  Calls are sequential: the lock [process_lock] and
    the interleaving of the monitor thread with a running call are not
    represented; one iteration of the monitor loop is an event of its own.
    Exceptions are those the invoked library calls raise on their inputs
    (creating directories, opening files, [Popen], signalling, waiting,
    decoding); resource exhaustion ([MemoryError], thread creation
    failing) is outside the model, and asking whether a path exists, like
    listing the USB bus, is a query that answers without raising and
    changes nothing.  [time.sleep] has no counterpart.  Text is ASCII: a
    [string] stands for a Python [str] whose characters are below 128, on
    which [lower] and [strip] below agree with Python's. *)

From Stdlib Require Import ZArith String Ascii List DecimalString.
From Stdlib Require Import DecimalPos DecimalZ.
From stdpp Require Import gmap strings list.

(** ** Python values that the methods return *)

#[warnings="-register-all"] Inductive pyval :=
| PNone
| PBool (b : bool)
| PStr (s : string)
| PDict (d : list (string * pyval)).

(** A [dict] literal keeps the order in which its keys are written. *)
Abbreviation pydict := (list (string * pyval)).

Fixpoint dict_get (k : string) (d : pydict) : option pyval :=
  match d with
  | [] => None
  | (k', v) :: d' => if String.eqb k k' then Some v else dict_get k d'
  end.

Definition dict_keys (d : pydict) : list string := map fst d.

Definition opt_str (o : option string) : pyval :=
  match o with
  | Some s => PStr s
  | None => PNone
  end.

(** ** Exceptions *)

(** The handlers of the class tell [FileNotFoundError] from every other
    [Exception]; [str_exn] is Python's [str(e)]. *)
Inductive exn :=
| FileNotFoundError (msg : string)
| Exception (msg : string).

Definition str_exn (e : exn) : string :=
  match e with
  | FileNotFoundError msg => msg
  | Exception msg => msg
  end.

(** ** Strings *)

Definition nl : string := String (ascii_of_nat 10) "".
Definition dquote : string := String (ascii_of_nat 34) "".

(** [str.lower] on ASCII: the letters [A]..[Z] move to [a]..[z]. *)
Definition lower_ascii (c : ascii) : ascii :=
  let n := nat_of_ascii c in
  if (65 <=? n)%nat && (n <=? 90)%nat then ascii_of_nat (n + 32) else c.

Fixpoint lower (s : string) : string :=
  match s with
  | EmptyString => EmptyString
  | String c s' => String (lower_ascii c) (lower s')
  end.

(** [needle in hay] on strings. *)
Fixpoint startswith (p s : string) : bool :=
  match p, s with
  | EmptyString, _ => true
  | String a p', String b s' => Ascii.eqb a b && startswith p' s'
  | String _ _, EmptyString => false
  end.

Fixpoint contains (needle hay : string) : bool :=
  startswith needle hay ||
  match hay with
  | EmptyString => false
  | String _ hay' => contains needle hay'
  end.

(** [str.strip()] with no argument removes leading and trailing white
    space; below 128 these are the codes 9..13, 28..31 and 32. *)
Definition isspace (c : ascii) : bool :=
  let n := nat_of_ascii c in
  ((9 <=? n)%nat && (n <=? 13)%nat) || ((28 <=? n)%nat && (n <=? 32)%nat).

Fixpoint lstrip (s : string) : string :=
  match s with
  | EmptyString => EmptyString
  | String c s' => if isspace c then lstrip s' else s
  end.

Fixpoint rstrip (s : string) : string :=
  match s with
  | EmptyString => EmptyString
  | String c s' =>
      match rstrip s' with
      | EmptyString => if isspace c then EmptyString else String c EmptyString
      | r => String c r
      end
  end.

Definition strip (s : string) : string := rstrip (lstrip s).

(** [f"{n}"] for an [int]. *)
Definition str_int (n : Z) : string := NilZero.string_of_int (Z.to_int n).

(** [text.join(lines)] with a newline after every line, as a triple-quoted
    literal lays its lines out. *)
Fixpoint unlines (ls : list string) : string :=
  match ls with
  | [] => ""
  | l :: ls' => l +:+ nl +:+ unlines ls'
  end.

(** ** Paths ([pathlib.Path], POSIX flavour) *)

Record Path := mkPath { absolute : bool; parts : list string }.

Fixpoint join_parts (ps : list string) : string :=
  match ps with
  | [] => ""
  | [p] => p
  | p :: ps' => p +:+ "/" +:+ join_parts ps'
  end.

(** [str(path)] *)
Definition str_path (p : Path) : string :=
  match absolute p, parts p with
  | false, [] => "."
  | false, ps => join_parts ps
  | true, ps => "/" +:+ join_parts ps
  end.

(** [path / name] *)
Definition path_div (p : Path) (name : string) : Path :=
  {| absolute := absolute p; parts := parts p ++ [name] |}.

(** [path.parent] *)
Definition path_parent (p : Path) : Path :=
  {| absolute := absolute p; parts := removelast (parts p) |}.

(** The path itself and every ancestor that has a name, nearest last:
    the directories [mkdir(parents=True)] makes sure exist. *)
Definition path_lineage (p : Path) : list Path :=
  map (fun k => {| absolute := absolute p; parts := take k (parts p) |})
      (seq 1 (length (parts p))).

(** ** The supervisor object and its surroundings *)

(** The attributes of [self].  A process handle is the rank of the launch
    in [spawned] below; [None] is Python's [None]. *)
Record Manager := mkManager {
  is_running : bool;
  carplay_process : option nat;
  project_root : Path;
  engine_dir : Path;
  executable_path : Path;
  settings_path : Path;
  pipe_path : string;
  last_status : string;
  connected_device : option string;
  error_message : option string
}.

(** One [subprocess.Popen] launch: command line, environment, directory. *)
Record Launch := mkLaunch {
  cmd : list string;
  env : gmap string string;
  cwd : string
}.

Inductive Signal := SIGTERM | SIGKILL.

(** What lies outside the object.  [files] are the regular files with
    their contents, [dirs] the directories, [pipes] the named pipes, each
    with the bytes written into it so far; [usb] is what running [lsusb]
    gives (its standard output, or the exception [subprocess.run] raises).
    [spawned], [signalled] and [monitors] record the launches made, the
    [terminate]/[kill] requests issued, and the monitor threads started. *)
Record World := mkWorld {
  files : gmap string string;
  dirs : gset string;
  pipes : gmap string (list Z);
  environ : gmap string string;
  usb : exn + string;
  spawned : list Launch;
  signalled : list (nat * Signal);
  monitors : nat
}.

Definition set_is_running (b : bool) (m : Manager) : Manager :=
  mkManager b (carplay_process m) (project_root m) (engine_dir m)
    (executable_path m) (settings_path m) (pipe_path m) (last_status m)
    (connected_device m) (error_message m).

Definition set_carplay_process (p : option nat) (m : Manager) : Manager :=
  mkManager (is_running m) p (project_root m) (engine_dir m)
    (executable_path m) (settings_path m) (pipe_path m) (last_status m)
    (connected_device m) (error_message m).

Definition set_last_status (s : string) (m : Manager) : Manager :=
  mkManager (is_running m) (carplay_process m) (project_root m) (engine_dir m)
    (executable_path m) (settings_path m) (pipe_path m) s
    (connected_device m) (error_message m).

Definition set_connected_device (d : option string) (m : Manager) : Manager :=
  mkManager (is_running m) (carplay_process m) (project_root m) (engine_dir m)
    (executable_path m) (settings_path m) (pipe_path m) (last_status m)
    d (error_message m).

Definition set_error_message (e : option string) (m : Manager) : Manager :=
  mkManager (is_running m) (carplay_process m) (project_root m) (engine_dir m)
    (executable_path m) (settings_path m) (pipe_path m) (last_status m)
    (connected_device m) e.

Definition set_files (f : gmap string string) (w : World) : World :=
  mkWorld f (dirs w) (pipes w) (environ w) (usb w) (spawned w)
    (signalled w) (monitors w).

Definition set_dirs (d : gset string) (w : World) : World :=
  mkWorld (files w) d (pipes w) (environ w) (usb w) (spawned w)
    (signalled w) (monitors w).

Definition set_pipes (p : gmap string (list Z)) (w : World) : World :=
  mkWorld (files w) (dirs w) p (environ w) (usb w) (spawned w)
    (signalled w) (monitors w).

Definition set_spawned (l : list Launch) (w : World) : World :=
  mkWorld (files w) (dirs w) (pipes w) (environ w) (usb w) l
    (signalled w) (monitors w).

Definition set_signalled (l : list (nat * Signal)) (w : World) : World :=
  mkWorld (files w) (dirs w) (pipes w) (environ w) (usb w) (spawned w)
    l (monitors w).

Definition set_monitors (n : nat) (w : World) : World :=
  mkWorld (files w) (dirs w) (pipes w) (environ w) (usb w) (spawned w)
    (signalled w) n.

(** ** The monad of the methods: state and exceptions *)

Definition State : Type := Manager * World.

Definition M (A : Type) : Type := State -> (exn + A) * State.

Definition ret {A} (a : A) : M A := fun st => (inr a, st).

Definition raise {A} (e : exn) : M A := fun st => (inl e, st).

Definition bind {A B} (c : M A) (k : A -> M B) : M B :=
  fun st =>
    match c st with
    | (inr a, st') => k a st'
    | (inl e, st') => (inl e, st')
    end.

(** [try: c except Exception as e: h e]; what [c] did to the state before
    raising stays done. *)
Definition try_except {A} (c : M A) (h : exn -> M A) : M A :=
  fun st =>
    match c st with
    | (inr a, st') => (inr a, st')
    | (inl e, st') => h e st'
    end.

Notation "x <- c ;; k" := (bind c (fun x => k))
  (at level 100, c at next level, right associativity).
Notation "c ;;; k" := (bind c (fun _ => k))
  (at level 100, right associativity).

Definition get_self : M Manager := fun st => (inr (fst st), st).
Definition get_world : M World := fun st => (inr (snd st), st).
Definition on_self (f : Manager -> Manager) : M unit :=
  fun st => (inr tt, (f (fst st), snd st)).
Definition on_world (f : World -> World) : M unit :=
  fun st => (inr tt, (fst st, f (snd st))).

(** A library call that raises when the surroundings say so. *)
Definition may_raise (fault : option exn) : M unit :=
  match fault with
  | Some e => raise e
  | None => ret tt
  end.

(** ** The methods of [CarPlayManager] *)

(** [__init__]; [root] is [Path(__file__).parent.parent]. *)
Definition __init__ (root : Path) : Manager :=
  let engine := path_div root "carplay_engine" in
  {| is_running := false;
     carplay_process := None;
     project_root := root;
     engine_dir := engine;
     executable_path := path_div (path_div engine "out") "app";
     settings_path := path_div (path_div engine "conf") "settings.txt";
     pipe_path := "/tmp/fastcarplay_pipe";
     last_status := "stopped";
     connected_device := None;
     error_message := None |}.

(** [Path.exists] and [os.path.exists]. *)
Definition path_exists (w : World) (p : string) : bool :=
  bool_decide (p ∈ dom (files w)) || bool_decide (p ∈ dirs w)
  || bool_decide (p ∈ dom (pipes w)).

Definition is_built : M bool :=
  self <- get_self ;; w <- get_world ;;
  ret (path_exists w (str_path (executable_path self))).

(** [is_dongle_connected]: any failure of the listing counts as absent. *)
Definition dongle_ids : list string := ["1314:"; "1234:"; "154b:"].

Definition is_dongle_connected : M bool :=
  w <- get_world ;;
  match usb w with
  | inr stdout => ret (existsb (fun dongle_id => contains dongle_id stdout) dongle_ids)
  | inl _ => ret false
  end.

Definition get_status : M pydict :=
  self <- get_self ;;
  built <- is_built ;;
  dongle <- is_dongle_connected ;;
  ret [("running", PBool (is_running self));
       ("built", PBool built);
       ("status", PStr (last_status self));
       ("connected_device", opt_str (connected_device self));
       ("dongle_detected", PBool dongle);
       ("error", opt_str (error_message self));
       ("executable_path", PStr (str_path (executable_path self)));
       ("settings_path", PStr (str_path (settings_path self)))].

(** [path.mkdir(parents=True, exist_ok=True)] *)
Definition mkdir (fault : option exn) (p : Path) : M unit :=
  may_raise fault ;;;
  on_world (fun w => set_dirs (list_to_set (map str_path (path_lineage p)) ∪ dirs w) w).

(** The text of the settings file. *)
Definition settings_text (self : Manager) (fullscreen : bool) (width height : Z) : string :=
  unlines [
    "# FastCarPlay Settings - Auto-generated for Car Stereo System";
    "# Raspberry Pi 5 with 7" +:+ dquote +:+ " Touchscreen Configuration";
    "";
    "# Display settings for 7" +:+ dquote +:+ " touchscreen (800x480)";
    "width = " +:+ str_int width;
    "height = " +:+ str_int height;
    "source-fps = 30";
    "fps = 30";
    "fullscreen = " +:+ (if fullscreen then "true" else "false");
    "cursor = false";
    "";
    "# Dongle settings (adjust vendor/product ID if needed)";
    "# Use lsusb to find your dongle's ID";
    "# vendor-id = 4884";
    "# product-id = 5408";
    "";
    "# Enable encryption for newer dongles";
    "encryption = false";
    "";
    "# Connection settings";
    "autoconnect = true";
    "weak-charge = true";
    "left-hand-drive = true";
    "night-mode = 2";
    "";
    "# WiFi settings";
    "wifi-5 = true";
    "bluetooth-audio = false";
    "mic-type = 1";
    "";
    "# Android Auto settings";
    "android-dpi = 140";
    "android-resolution = 1";
    "android-media-delay = 300";
    "";
    "# Performance settings for Pi 5";
    "font-size = 24";
    "vsync = false";
    "hw-decode = true";
    "fast-render-scale = true";
    "video-buffer-size = 32";
    "audio-buffer-size = 32";
    "audio-buffer-wait = 2";
    "audio-buffer-wait-call = 8";
    "audio-fade = 0.3";
    "";
    "# Audio driver (pipewire recommended for Pi 5)";
    "# audio-driver = pipewire";
    "";
    "# Named pipe for key commands from Flask";
    "key-pipe-path = " +:+ pipe_path self;
    "";
    "# Enable logging for debugging (disable in production)";
    "logging = false"
  ].

(** [_write_settings]; [open(path, 'w')] followed by one [write] puts the
    whole text in place of what the file held. *)
Definition _write_settings (mkdir_fault open_fault : option exn)
    (fullscreen : bool) (width height : Z) : M unit :=
  self <- get_self ;;
  let settings := settings_text self fullscreen width height in
  mkdir mkdir_fault (path_parent (settings_path self)) ;;;
  may_raise open_fault ;;;
  on_world (fun w => set_files (<[str_path (settings_path self) := settings]> (files w)) w).

(** What the operating system answers during one [start]: the exception,
    if any, raised by the first [mkdir], by the [mkdir] and by the [open]
    inside [_write_settings], and by [Popen]; and what became of the child
    by the end of the grace period. *)
Inductive Captured :=
| StderrEmpty                      (* [communicate()] gave no error output *)
| StderrText (text : string)       (* error output, decoding to [text] *)
| StderrUndecodable (msg : string). (* [decode()] raises; [msg] is its text *)

Inductive ChildFate :=
| StillAlive                       (* [poll()] is [None] *)
| ExitedEarly (stderr : Captured).

Record StartEnv := mkStartEnv {
  mkdir_fault : option exn;
  settings_mkdir_fault : option exn;
  settings_open_fault : option exn;
  popen_fault : option exn;
  child : ChildFate
}.

(** [subprocess.Popen(cmd, ..., env=env, cwd=cwd)]: the handle returned is
    the rank of the launch. *)
Definition Popen (fault : option exn) (cmd : list string)
    (env : gmap string string) (cwd : string) : M nat :=
  may_raise fault ;;;
  w <- get_world ;;
  on_world (set_spawned (spawned w ++ [mkLaunch cmd env cwd])) ;;;
  ret (length (spawned w)).

(** [threading.Thread(target=self._monitor_output, daemon=True).start()] *)
Definition start_monitor_thread : M unit :=
  on_world (fun w => set_monitors (S (monitors w)) w).

Definition result (success : bool) (message : string) (status : pydict) : pydict :=
  [("success", PBool success); ("message", PStr message); ("status", PDict status)].

Definition start (o : StartEnv) (fullscreen : bool) (width height : Z) : M pydict :=
  try_except
    (self <- get_self ;;
     if is_running self then
       status <- get_status ;;
       ret (result true "CarPlay already running" status)
     else
       built <- is_built ;;
       if negb built then
         status <- get_status ;;
         ret (result false "FastCarPlay not built. Run build script first." status)
       else
         let settings_dir := path_parent (settings_path self) in
         mkdir (mkdir_fault o) settings_dir ;;;
         _write_settings (settings_mkdir_fault o) (settings_open_fault o)
           fullscreen width height ;;;
         w <- get_world ;;
         let env := environ w in
         let env := if bool_decide ("DISPLAY" ∈ dom env) then env
                    else <["DISPLAY" := ":0"]> env in
         let cmd := [str_path (executable_path self)] in
         let cmd := if path_exists w (str_path (settings_path self))
                    then cmd ++ [str_path (settings_path self)] else cmd in
         p <- Popen (popen_fault o) cmd env (str_path (engine_dir self)) ;;
         on_self (set_carplay_process (Some p)) ;;;
         match child o with
         | StillAlive =>
             on_self (set_is_running true) ;;;
             on_self (set_last_status "running") ;;;
             on_self (set_error_message None) ;;;
             start_monitor_thread ;;;
             status <- get_status ;;
             ret (result true "CarPlay started successfully" status)
         | ExitedEarly stderr =>
             err <- match stderr with
                    | StderrText text => ret text
                    | StderrUndecodable msg => raise (Exception msg)
                    | StderrEmpty => ret "Process terminated unexpectedly"
                    end ;;
             on_self (set_error_message (Some err)) ;;;
             status <- get_status ;;
             ret (result false ("CarPlay failed to start: " +:+ err) status)
         end)
    (fun e =>
       match e with
       | FileNotFoundError _ =>
           on_self (set_error_message (Some "FastCarPlay executable not found")) ;;;
           status <- get_status ;;
           ret (result false "FastCarPlay executable not found" status)
       | Exception _ =>
           on_self (set_error_message (Some (str_exn e))) ;;;
           status <- get_status ;;
           ret (result false (str_exn e) status)
       end).

(** What the operating system answers during one [stop]. *)
Inductive WaitResult :=
| WaitExited
| WaitTimeout            (* [subprocess.TimeoutExpired] *)
| WaitRaises (e : exn).

Record StopEnv := mkStopEnv {
  terminate_fault : option exn;
  wait_result : WaitResult;
  kill_fault : option exn;
  rewait_fault : option exn
}.

Definition send_signal (fault : option exn) (p : nat) (s : Signal) : M unit :=
  may_raise fault ;;;
  on_world (fun w => set_signalled (signalled w ++ [(p, s)]) w).

Definition stop (o : StopEnv) : M pydict :=
  try_except
    (self <- get_self ;;
     match is_running self, carplay_process self with
     | true, Some p =>
         send_signal (terminate_fault o) p SIGTERM ;;;
         match wait_result o with
         | WaitExited => ret tt
         | WaitTimeout =>
             send_signal (kill_fault o) p SIGKILL ;;;
             may_raise (rewait_fault o)
         | WaitRaises e => raise e
         end ;;;
         on_self (set_carplay_process None) ;;;
         on_self (set_is_running false) ;;;
         on_self (set_last_status "stopped") ;;;
         on_self (set_connected_device None) ;;;
         on_self (set_error_message None) ;;;
         status <- get_status ;;
         ret (result true "CarPlay stopped successfully" status)
     | _, _ =>
         on_self (set_is_running false) ;;;
         on_self (set_last_status "stopped") ;;;
         status <- get_status ;;
         ret (result true "CarPlay was not running" status)
     end)
    (fun e =>
       on_self (set_is_running false) ;;;
       on_self (set_last_status "stopped") ;;;
       status <- get_status ;;
       ret (result true "CarPlay stopped" status)).

(** [restart]: the [start] it ends with is called without arguments, that
    is with the defaults of line 72. *)
Definition restart (so : StopEnv) (go : StartEnv) : M pydict :=
  stop so ;;;
  start go true 800 480.

(** Key codes of the receiver's protocol. *)
Definition key_map : gmap string Z :=
  list_to_map [("left", 100); ("right", 101); ("select_down", 104);
               ("select_up", 105); ("select", 104); ("back", 106);
               ("home", 200)]%Z.

(** [open(path, 'wb')]: a named pipe is left as it is, a regular file is
    created or emptied, a directory cannot be opened. *)
Definition open_wb (fault : option exn) (path : string) : M unit :=
  may_raise fault ;;;
  w <- get_world ;;
  if bool_decide (path ∈ dom (pipes w)) then ret tt
  else if bool_decide (path ∈ dirs w)
       then raise (Exception ("[Errno 21] Is a directory: '" +:+ path +:+ "'"))
       else on_world (set_files (<[path := ""]> (files w))).

Definition byte_char (b : Z) : string := String (ascii_of_nat (Z.to_nat b)) "".

(** [f.write(bytes([b]))] on what [open_wb] opened. *)
Definition write_byte (path : string) (b : Z) : M unit :=
  w <- get_world ;;
  match pipes w !! path with
  | Some sent => on_world (set_pipes (<[path := sent ++ [b]]> (pipes w)))
  | None =>
      on_world (set_files (<[path := default "" (files w !! path) +:+ byte_char b]> (files w)))
  end.

Definition fail (message : string) : pydict :=
  [("success", PBool false); ("message", PStr message)].

Definition send_key (io_fault : option exn) (key_code : string) : M pydict :=
  try_except
    (self <- get_self ;;
     w <- get_world ;;
     if negb (path_exists w (pipe_path self)) then
       ret (fail "Key pipe not available")
     else
       match key_map !! lower key_code with
       | None => ret (fail ("Unknown key: " +:+ key_code))
       | Some code =>
           open_wb io_fault (pipe_path self) ;;;
           write_byte (pipe_path self) code ;;;
           (if String.eqb (lower key_code) "select"
            then write_byte (pipe_path self) 105
            else ret tt) ;;;
           ret [("success", PBool true);
                ("message", PStr ("Key " +:+ key_code +:+ " sent"))]
       end)
    (fun e => ret (fail (str_exn e))).

(** What one turn of the monitor loop meets: the child has exited, or it
    is alive and [readline] gives nothing, a line (already decoded), or
    the reading or decoding raises. *)
Inductive MonitorObs :=
| ChildExited
| NoLine
| Line (text : string)
| ReadFault (e : exn).

Inductive LoopCtl := Continue | Break | GuardFalse.

(** One turn of [while self.is_running and self.carplay_process: ...]. *)
Definition monitor_turn (o : MonitorObs) : M LoopCtl :=
  self <- get_self ;;
  match is_running self, carplay_process self with
  | true, Some _ =>
      match o with
      | ChildExited =>
          on_self (set_is_running false) ;;;
          on_self (set_last_status "stopped") ;;;
          ret Break
      | NoLine => ret Continue
      | ReadFault e => raise e
      | Line text =>
          let decoded := strip text in
          (if contains "Connected" decoded then
             on_self (set_last_status "connected") ;;;
             on_self (set_connected_device (Some "CarPlay/Android Auto"))
           else if contains "Disconnected" decoded then
             on_self (set_last_status "waiting") ;;;
             on_self (set_connected_device None)
           else if contains "Error" decoded then
             on_self (set_error_message (Some decoded))
           else ret tt) ;;;
          ret Continue
      end
  | _, _ => ret GuardFalse
  end.

(** The loop over what the thread meets, turn after turn; the result says
    whether the loop was left through [break], that is, whether the exit
    of the child was seen. *)
Fixpoint monitor_loop (obs : list MonitorObs) : M bool :=
  match obs with
  | [] => ret false
  | o :: rest =>
      ctl <- monitor_turn o ;;
      match ctl with
      | Continue => monitor_loop rest
      | Break => ret true
      | GuardFalse => ret false
      end
  end.

Definition _monitor_output (obs : list MonitorObs) : M bool :=
  try_except (monitor_loop obs) (fun e => ret false).

Definition is_active : M bool :=
  self <- get_self ;; ret (is_running self).

(** ** Sequences of calls *)

(** What can happen to the supervisor, one thing after another: a call of
    a public method with what the operating system answers during it, a
    run of the monitor thread over what it meets, or a change of the
    surroundings made by somebody else. *)
Inductive Call :=
| CallStart (o : StartEnv) (fullscreen : bool) (width height : Z)
| CallStop (o : StopEnv)
| CallRestart (so : StopEnv) (go : StartEnv)
| CallSendKey (io_fault : option exn) (key_code : string)
| CallGetStatus
| MonitorRuns (obs : list MonitorObs)
| Surroundings (f : gmap string string) (d : gset string)
    (p : gmap string (list Z)) (e : gmap string string) (u : exn + string).

(** The lifecycle operations a sequence of calls completes, in order. *)
Inductive Lifecycle :=
| Started (ok : bool)     (* a [start] returned, with this [success] *)
| Stopped                 (* a [stop] returned *)
| ExitSeen.               (* the monitor saw that the child had exited *)

(** The [success] entry of what a method returned. *)
Definition succeeded (r : exn + pydict) : bool :=
  match r with
  | inr d =>
      match dict_get "success" d with
      | Some (PBool b) => b
      | _ => false
      end
  | inl _ => false
  end.

Definition perform (c : Call) (st : State) : list Lifecycle * State :=
  match c with
  | CallStart o fullscreen width height =>
      let '(r, st') := start o fullscreen width height st in
      ([Started (succeeded r)], st')
  | CallStop o =>
      let '(_, st') := stop o st in ([Stopped], st')
  | CallRestart so go =>
      (* [restart] completes its [stop], then its [start], whose result
         it returns (see [restart_unfold]) *)
      let '(r, st') := restart so go st in
      ([Stopped; Started (succeeded r)], st')
  | CallSendKey io_fault key_code =>
      ([], snd (send_key io_fault key_code st))
  | CallGetStatus =>
      ([], snd (get_status st))
  | MonitorRuns obs =>
      let '(r, st') := _monitor_output obs st in
      (match r with inr true => [ExitSeen] | _ => [] end, st')
  | Surroundings f d p e u =>
      let w := snd st in
      ([], (fst st, mkWorld f d p e u (spawned w) (signalled w) (monitors w)))
  end.

Fixpoint run (cs : list Call) (h : list Lifecycle) (st : State)
    : list Lifecycle * State :=
  match cs with
  | [] => (h, st)
  | c :: cs' => let '(e, st') := perform c st in run cs' (h ++ e) st'
  end.

(** The supervisor freshly constructed in surroundings [w], taken through
    the calls [cs]. *)
Definition history (root : Path) (w : World) (cs : list Call) : list Lifecycle :=
  fst (run cs [] (__init__ root, w)).

Definition outcome (root : Path) (w : World) (cs : list Call) : State :=
  snd (run cs [] (__init__ root, w)).

(** "The last completed lifecycle operation was a successful [start]":
    nothing, in particular no [stop] and no exit seen, came after it. *)
Definition last_was_successful_start (h : list Lifecycle) : bool :=
  match last h with
  | Some (Started true) => true
  | _ => false
  end.

(** [get_status] as a function of the state (it changes nothing, see
    [get_status_eq]). *)
Definition status_report (st : State) : pydict :=
  match fst (get_status st) with
  | inr d => d
  | inl _ => []
  end.

(** ** Properties of computations and states used in the proofs *)

(** A computation that never touches [self]. *)
Definition keeps_self {A} (c : M A) : Prop :=
  forall st, fst (snd (c st)) = fst st.

(** The flag agrees with the lifecycle operations completed so far. *)
Definition flag_follows (h : list Lifecycle) (st : State) : Prop :=
  is_running (fst st) = last_was_successful_start h.

(** A supervisor that says it is running holds a process handle. *)
Definition handle_when_running (st : State) : Prop :=
  is_running (fst st) = true -> carplay_process (fst st) <> None.

(** ** Statements of the specification, word for word *)

(** A result "shaped [{success: bool, message: string, status:
    StatusReport}]". *)
Definition result_shaped (d : pydict) : Prop :=
  exists (b : bool) (msg : string) (status : pydict),
    dict_get "success" d = Some (PBool b) /\
    dict_get "message" d = Some (PStr msg) /\
    dict_get "status" d = Some (PDict status).

(** What [start], [stop] and [restart] hand back: no exception, and a
    dictionary of that shape with no other key, whose [status] is the
    status report of the state the call leaves. *)
Definition returns_result (r : (exn + pydict) * State) : Prop :=
  exists d : pydict,
    fst r = inr d /\
    result_shaped d /\
    dict_keys d = ["success"; "message"; "status"] /\
    dict_get "status" d = Some (PDict (status_report (snd r))).

(** "[stop] always clears [running], [processHandle], [connectedDevice],
    [errorMessage] and sets [lastStatus=stopped] on return", with success. *)
Definition stop_clears_everything (r : exn + pydict) (m' : Manager) : Prop :=
  succeeded r = true /\
  is_running m' = false /\
  carplay_process m' = None /\
  connected_device m' = None /\
  error_message m' = None /\
  last_status m' = "stopped".

(** "[processHandle] is non-null iff [running] is true". *)
Definition handle_iff_running (m : Manager) : Prop :=
  carplay_process m <> None <-> is_running m = true.

(** "[stop()] followed by [start()] with the same configuration" as the
    preceding [start], whose arguments were [fullscreen], [width] and
    [height]. *)
Definition stop_then_start (so : StopEnv) (go : StartEnv)
    (fullscreen : bool) (width height : Z) : M pydict :=
  stop so ;;;
  start go fullscreen width height.

(** "[start()] returns a failure result whose message contains the
    captured error output (also stored as [error_message]), and the
    running flag is false afterward", for error output [captured]. *)
Definition early_exit_reported (captured : string) (r : exn + pydict)
    (m' : Manager) : Prop :=
  succeeded r = false /\
  (exists d msg, r = inr d /\ dict_get "message" d = Some (PStr msg) /\
                 contains captured msg = true) /\
  error_message m' = Some captured /\
  is_running m' = false.

(** The error text [start] keeps when the child exited early. *)
Definition early_exit_text (stderr : Captured) : string :=
  match stderr with
  | StderrText text => text
  | StderrUndecodable msg => msg
  | StderrEmpty => "Process terminated unexpectedly"
  end.

Definition early_exit_message (stderr : Captured) : string :=
  match stderr with
  | StderrUndecodable msg => msg
  | _ => "CarPlay failed to start: " +:+ early_exit_text stderr
  end.

(** A [stop] during which nothing raises. *)
Definition terminates_cleanly (o : StopEnv) : bool :=
  match terminate_fault o, wait_result o with
  | None, WaitExited => true
  | None, WaitTimeout =>
      match kill_fault o, rewait_fault o with
      | None, None => true
      | _, _ => false
      end
  | _, _ => false
  end.

(** ** A concrete installation, for examples *)

Definition demo_root : Path := mkPath true ["opt"; "car"].

Definition demo_world : World :=
  {| files := {["/opt/car/carplay_engine/out/app" := "ELF"]};
     dirs := {["/opt"; "/opt/car"; "/opt/car/carplay_engine";
               "/opt/car/carplay_engine/out"; "/tmp"]};
     pipes := {["/tmp/fastcarplay_pipe" := []]};
     environ := {["HOME" := "/root"]};
     usb := inr "Bus 001 Device 004: ID 1314:1520 Magic Communication";
     spawned := [];
     signalled := [];
     monitors := 0 |}.

Definition no_faults (fate : ChildFate) : StartEnv :=
  mkStartEnv None None None None fate.

Definition clean_stop : StopEnv := mkStopEnv None WaitExited None None.

(** The same surroundings before the engine has been built. *)
Definition demo_unbuilt : World := set_files ∅ demo_world.

(** Started windowed, child alive. *)
Definition demo_running : State :=
  outcome demo_root demo_world [CallStart (no_faults StillAlive) false 800 480].

(** Started, and the monitor has read a line announcing a phone. *)
Definition demo_connected : State :=
  outcome demo_root demo_world
    [CallStart (no_faults StillAlive) true 800 480;
     MonitorRuns [Line "Device Connected"]].

(** A [start] whose child wrote [boom] and died within the grace period. *)
Definition demo_failed : State :=
  outcome demo_root demo_world
    [CallStart (no_faults (ExitedEarly (StderrText "boom"))) true 800 480].

(** ** Notions used by the further properties *)

(** What the two handlers of [start] store and report for an exception. *)
Definition handler_text (e : exn) : string :=
  match e with
  | FileNotFoundError _ => "FastCarPlay executable not found"
  | Exception msg => msg
  end.

(** The paths a supervisor works with. *)
Definition same_paths (m1 m2 : Manager) : Prop :=
  project_root m1 = project_root m2 /\
  engine_dir m1 = engine_dir m2 /\
  executable_path m1 = executable_path m2 /\
  settings_path m1 = settings_path m2 /\
  pipe_path m1 = pipe_path m2.

(** The values the code ever gives to [last_status] and to
    [connected_device]. *)
Definition status_values : list string :=
  ["stopped"; "running"; "connected"; "waiting"].

Definition status_in_range (m : Manager) : Prop :=
  In (last_status m) status_values /\
  (connected_device m = None \/
   connected_device m = Some "CarPlay/Android Auto").

(** The handle held, if any, is that of the most recent launch. *)
Definition handle_is_latest (st : State) : Prop :=
  forall p, carplay_process (fst st) = Some p ->
            S p = length (spawned (snd st)).

(** The number of [start]s a history has completed. *)
Fixpoint starts (h : list Lifecycle) : nat :=
  match h with
  | [] => 0
  | Started _ :: h' => S (starts h')
  | _ :: h' => starts h'
  end.

(** What the proofs track along a sequence of calls, relative to the
    supervisor [m0] and the number [n0] of launches it began with. *)
Definition steady (m0 : Manager) (n0 : nat) (h : list Lifecycle) (st : State) : Prop :=
  same_paths (fst st) m0 /\
  status_in_range (fst st) /\
  handle_is_latest st /\
  length (spawned (snd st)) <= n0 + starts h.

(** A computation that leaves the record of launches alone. *)
Definition keeps_launches {A} (c : M A) : Prop :=
  forall st, spawned (snd (snd (c st))) = spawned (snd st).

(** The flag and the status tell the same story. *)
Definition flag_matches_status (m : Manager) : Prop :=
  is_running m = false <-> last_status m = "stopped".

(** [needle in hay], said with concatenation. *)
Definition occurs_in (needle hay : string) : Prop :=
  exists pre post, hay = pre +:+ needle +:+ post.

(** ** Running the methods *)

Ltac run_monad_once :=
  unfold may_raise, try_except, bind, ret, raise, get_self, get_world,
    on_self, on_world; cbn [fst snd].

Ltac run_monad := run_monad_once; repeat progress run_monad_once.

Lemma get_status_pure st :
  exists status, get_status st = (inr status, st).
Proof.
  unfold get_status, is_built, is_dongle_connected. run_monad.
  destruct (usb (snd st)); run_monad; destruct st; eauto.
Qed.

Lemma get_status_eq st : get_status st = (inr (status_report st), st).
Proof.
  unfold status_report. destruct (get_status_pure st) as [s ->]. reflexivity.
Qed.

Ltac step_monad :=
  repeat first
    [ rewrite get_status_eq
    | progress run_monad ].

Ltac case_env :=
  match goal with
  | |- context [match ?x with _ => _ end] => is_var x; destruct x
  end.

Ltac crunch := step_monad; repeat (case_env; step_monad).

Ltac open_start :=
  unfold start, is_built, mkdir, _write_settings, mkdir, Popen,
    start_monitor_thread;
  cbn [mkdir_fault settings_mkdir_fault settings_open_fault popen_fault child].

Ltac open_stop :=
  unfold stop, send_signal;
  cbn [terminate_fault wait_result kill_fault rewait_fault].

(** *** [start] *)

Lemma start_flag o fullscreen width height st :
  is_running (fst (snd (start o fullscreen width height st)))
  = succeeded (fst (start o fullscreen width height st)).
Proof.
  destruct st as [m w], o as [f1 f2 f3 f4 fate]. open_start. run_monad.
  destruct (is_running m) eqn:Hr; step_monad.
  - cbn. done.
  - destruct (path_exists w (str_path (executable_path m))); cbn [negb];
      crunch; cbn; done.
Qed.

Lemma start_keeps_handle o fullscreen width height st :
  (is_running (fst st) = true -> carplay_process (fst st) <> None) ->
  is_running (fst (snd (start o fullscreen width height st))) = true ->
  carplay_process (fst (snd (start o fullscreen width height st))) <> None.
Proof.
  destruct st as [m w], o as [f1 f2 f3 f4 fate]. cbn [fst].
  open_start. run_monad.
  destruct (is_running m) eqn:Hr; step_monad.
  - cbn. auto.
  - intros _.
    destruct (path_exists w (str_path (executable_path m))); cbn [negb];
      crunch; cbn; congruence.
Qed.

Lemma start_returns o fullscreen width height st :
  exists b msg,
    fst (start o fullscreen width height st)
    = inr (result b msg (status_report (snd (start o fullscreen width height st)))).
Proof.
  destruct st as [m w], o as [f1 f2 f3 f4 fate]. open_start. run_monad.
  destruct (is_running m); step_monad.
  - cbn. eauto.
  - destruct (path_exists w (str_path (executable_path m))); cbn [negb];
      crunch; cbn; eauto.
Qed.

(** *** [stop] *)

Lemma stop_returns o st :
  exists msg,
    fst (stop o st) = inr (result true msg (status_report (snd (stop o st)))).
Proof.
  destruct st as [m w], o as [f1 wr f2 f3]. open_stop. run_monad.
  destruct (is_running m), (carplay_process m); crunch; cbn; eauto.
Qed.

Lemma stop_flag o st :
  is_running (fst (snd (stop o st))) = false /\
  last_status (fst (snd (stop o st))) = "stopped".
Proof.
  destruct st as [m w], o as [f1 wr f2 f3]. open_stop. run_monad.
  destruct (is_running m), (carplay_process m); crunch; cbn; done.
Qed.

Lemma restart_unfold so go st :
  restart so go st = start go true 800 480 (snd (stop so st)).
Proof.
  unfold restart. unfold bind at 1.
  destruct (stop_returns so st) as [msg Hs].
  destruct (stop so st) as [r st']. cbn [fst snd] in *. subst r. reflexivity.
Qed.

(** *** [send_key] and [get_status] leave [self] alone *)

Lemma keeps_self_ret {A} (a : A) : keeps_self (ret a).
Proof. intros st. reflexivity. Qed.

Lemma keeps_self_raise {A} e : keeps_self (@raise A e).
Proof. intros st. reflexivity. Qed.

Lemma keeps_self_get_self : keeps_self get_self.
Proof. intros st. reflexivity. Qed.

Lemma keeps_self_get_world : keeps_self get_world.
Proof. intros st. reflexivity. Qed.

Lemma keeps_self_on_world f : keeps_self (on_world f).
Proof. intros st. reflexivity. Qed.

Lemma keeps_self_may_raise fault : keeps_self (may_raise fault).
Proof. destruct fault; intros st; reflexivity. Qed.

Lemma keeps_self_bind {A B} (c : M A) (k : A -> M B) :
  keeps_self c -> (forall a, keeps_self (k a)) -> keeps_self (bind c k).
Proof.
  intros Hc Hk st. unfold bind. specialize (Hc st).
  destruct (c st) as [[e|a] st1]; cbn [fst snd] in *; [assumption|].
  rewrite Hk. assumption.
Qed.

Lemma keeps_self_try {A} (c : M A) (h : exn -> M A) :
  keeps_self c -> (forall e, keeps_self (h e)) -> keeps_self (try_except c h).
Proof.
  intros Hc Hh st. unfold try_except. specialize (Hc st).
  destruct (c st) as [[e|a] st1]; cbn [fst snd] in *; [|assumption].
  rewrite Hh. assumption.
Qed.

Create HintDb keeps_self.
#[local] Hint Resolve keeps_self_ret keeps_self_raise keeps_self_get_self
  keeps_self_get_world keeps_self_on_world keeps_self_may_raise : keeps_self.

Ltac keeps_self_tac :=
  repeat first
    [ progress auto with keeps_self
    | apply keeps_self_bind
    | apply keeps_self_try
    | match goal with
      | |- forall _, _ => intro
      | |- keeps_self (match ?x with _ => _ end) => destruct x
      end ].

Lemma send_key_self io_fault key_code : keeps_self (send_key io_fault key_code).
Proof. unfold send_key, open_wb, write_byte. keeps_self_tac. Qed.

Lemma get_status_self : keeps_self get_status.
Proof. intros st. rewrite get_status_eq. reflexivity. Qed.

(** *** The monitor loop *)

Lemma monitor_turn_spec o st :
  carplay_process (fst (snd (monitor_turn o st))) = carplay_process (fst st) /\
  snd (snd (monitor_turn o st)) = snd st /\
  (fst (monitor_turn o st) = inr Break ->
   is_running (fst (snd (monitor_turn o st))) = false) /\
  (fst (monitor_turn o st) <> inr Break ->
   is_running (fst (snd (monitor_turn o st))) = is_running (fst st)).
Proof.
  destruct st as [m w]. unfold monitor_turn. run_monad.
  destruct (is_running m) eqn:Hr, (carplay_process m) eqn:Hp;
    run_monad; try (repeat split; congruence).
  destruct o; run_monad; cbn; try (repeat split; congruence).
  destruct (contains "Connected" (strip text));
    [| destruct (contains "Disconnected" (strip text));
       [| destruct (contains "Error" (strip text))]];
    run_monad; cbn; repeat split; congruence.
Qed.

Lemma monitor_loop_spec obs : forall st,
  carplay_process (fst (snd (monitor_loop obs st))) = carplay_process (fst st) /\
  snd (snd (monitor_loop obs st)) = snd st /\
  (fst (monitor_loop obs st) = inr true ->
   is_running (fst (snd (monitor_loop obs st))) = false) /\
  (fst (monitor_loop obs st) <> inr true ->
   is_running (fst (snd (monitor_loop obs st))) = is_running (fst st)).
Proof.
  induction obs as [|o rest IH]; intros st.
  - cbn. repeat split; congruence.
  - cbn [monitor_loop]. unfold bind.
    destruct (monitor_turn_spec o st) as (Hp & Hw & Hb & Hn).
    destruct (monitor_turn o st) as [[e|ctl] st1]; cbn [fst snd] in *.
    + repeat split; try congruence. intros _. apply Hn. congruence.
    + destruct ctl.
      * destruct (IH st1) as (Hp1 & Hw1 & Hb1 & Hn1).
        rewrite Hp1, Hw1, Hp, Hw. repeat split; auto.
        intros Hne. rewrite (Hn1 Hne). apply Hn. congruence.
      * run_monad. repeat split; auto; congruence.
      * run_monad. repeat split; try congruence. intros _. apply Hn. congruence.
Qed.

Lemma monitor_output_spec obs st :
  carplay_process (fst (snd (_monitor_output obs st))) = carplay_process (fst st) /\
  snd (snd (_monitor_output obs st)) = snd st /\
  (fst (_monitor_output obs st) = inr true ->
   is_running (fst (snd (_monitor_output obs st))) = false) /\
  (fst (_monitor_output obs st) <> inr true ->
   is_running (fst (snd (_monitor_output obs st))) = is_running (fst st)).
Proof.
  unfold _monitor_output, try_except.
  destruct (monitor_loop_spec obs st) as (Hp & Hw & Hb & Hn).
  destruct (monitor_loop obs st) as [[e|b] st1]; cbn [fst snd] in *.
  - unfold ret. cbn [fst snd]. repeat split; try congruence.
    intros _. apply Hn. congruence.
  - repeat split; auto.
Qed.

(** *** What every call preserves *)

Lemma last_was_snoc h x :
  last_was_successful_start (h ++ [x])
  = match x with Started true => true | _ => false end.
Proof. unfold last_was_successful_start. rewrite last_snoc. reflexivity. Qed.

Lemma perform_flag c h st :
  flag_follows h st ->
  flag_follows (h ++ fst (perform c st)) (snd (perform c st)).
Proof.
  unfold flag_follows. intros Inv.
  destruct c as [o fs wd ht|o|so go|io k| |obs|f d p e u]; cbn [perform].
  - pose proof (start_flag o fs wd ht st) as Hf.
    destruct (start o fs wd ht st) as [r st']. cbn [fst snd] in *.
    rewrite last_was_snoc, Hf. destruct (succeeded r); reflexivity.
  - destruct (stop_flag o st) as [Hf _].
    destruct (stop o st) as [r st']. cbn [fst snd] in *.
    rewrite last_was_snoc. assumption.
  - rewrite restart_unfold.
    pose proof (start_flag go true 800 480 (snd (stop so st))) as Hf.
    destruct (start go true 800 480 (snd (stop so st))) as [r st'].
    cbn [fst snd] in *.
    change [Stopped; Started (succeeded r)]
      with ([Stopped] ++ [Started (succeeded r)]).
    rewrite (assoc_L (++)), last_was_snoc, Hf.
    destruct (succeeded r); reflexivity.
  - cbn [fst snd]. rewrite app_nil_r, send_key_self. assumption.
  - cbn [fst snd]. rewrite app_nil_r, get_status_self. assumption.
  - destruct (monitor_output_spec obs st) as (_ & _ & Hb & Hn).
    destruct (_monitor_output obs st) as [[e|[|]] st']; cbn [fst snd] in *.
    + rewrite app_nil_r, Hn; [assumption|discriminate].
    + rewrite last_was_snoc. auto.
    + rewrite app_nil_r, Hn; [assumption|discriminate].
  - cbn [fst snd]. rewrite app_nil_r. assumption.
Qed.

Lemma perform_handle c st :
  handle_when_running st -> handle_when_running (snd (perform c st)).
Proof.
  unfold handle_when_running. intros Inv.
  destruct c as [o fs wd ht|o|so go|io k| |obs|f d p e u]; cbn [perform].
  - pose proof (start_keeps_handle o fs wd ht st Inv) as Hk.
    destruct (start o fs wd ht st) as [r st']. exact Hk.
  - destruct (stop_flag o st) as [Hf _].
    destruct (stop o st) as [r st']. cbn [fst snd] in *. congruence.
  - rewrite restart_unfold.
    destruct (stop_flag so st) as [Hf _].
    assert (Hk := start_keeps_handle go true 800 480 (snd (stop so st))).
    destruct (start go true 800 480 (snd (stop so st))) as [r st'].
    cbn [fst snd] in *. apply Hk. congruence.
  - cbn [fst snd]. rewrite send_key_self. assumption.
  - cbn [fst snd]. rewrite get_status_self. assumption.
  - destruct (monitor_output_spec obs st) as (Hp & _ & Hb & Hn).
    destruct (_monitor_output obs st) as [[e|[|]] st']; cbn [fst snd] in *.
    + rewrite Hp, Hn; [assumption|discriminate].
    + rewrite Hb; [discriminate|reflexivity].
    + rewrite Hp, Hn; [assumption|discriminate].
  - cbn [fst snd]. assumption.
Qed.

Lemma run_flag cs : forall h st,
  flag_follows h st ->
  flag_follows (fst (run cs h st)) (snd (run cs h st)).
Proof.
  induction cs as [|c cs IH]; intros h st Inv; cbn [run].
  - assumption.
  - pose proof (perform_flag c h st Inv) as Hc.
    destruct (perform c st) as [e st']. apply IH. exact Hc.
Qed.

Lemma run_handle cs : forall h st,
  handle_when_running st -> handle_when_running (snd (run cs h st)).
Proof.
  induction cs as [|c cs IH]; intros h st Inv; cbn [run].
  - assumption.
  - pose proof (perform_handle c st Inv) as Hc.
    destruct (perform c st) as [e st']. apply IH. exact Hc.
Qed.

(** ** The claims *)

(** C1.  Whatever sequence of [start], [stop] and [restart] calls (and of
    anything else: key presses, status queries, runs of the monitor
    thread, changes of the surroundings) a freshly built supervisor goes
    through, [is_running] is true afterwards exactly when the last
    lifecycle operation completed was a [start] that returned success:
    no [stop] and no exit seen by the monitor came after it. *)
Theorem running_iff_last_start_succeeded (root : Path) (w : World) (cs : list Call) :
  is_running (fst (outcome root w cs)) = true
  <-> last_was_successful_start (history root w cs) = true.
Proof.
  unfold outcome, history.
  pose proof (run_flag cs [] (__init__ root, w) eq_refl) as H.
  unfold flag_follows in H. rewrite H. reflexivity.
Qed.

Example history_demo :
  history demo_root demo_world
    [CallStart (no_faults StillAlive) false 800 480;
     CallSendKey None "select";
     CallRestart clean_stop (no_faults (ExitedEarly StderrEmpty));
     CallStart (no_faults StillAlive) true 800 480;
     MonitorRuns [Line "Connected"; NoLine];
     CallStart (no_faults StillAlive) true 800 480]
  = [Started true; Stopped; Started false; Started true; Started true].
Proof. vm_compute. reflexivity. Qed.

Example history_demo_exit :
  let cs := [CallStart (no_faults StillAlive) true 800 480;
             MonitorRuns [NoLine; ChildExited; NoLine]] in
  history demo_root demo_world cs = [Started true; ExitSeen] /\
  is_running (fst (outcome demo_root demo_world cs)) = false.
Proof. vm_compute. split; reflexivity. Qed.

(** C2, as the code has it.  Every [stop] returns success and leaves
    [is_running] false and [last_status] at ['stopped'], whatever raised
    on the way.  The process handle, [connected_device] and
    [error_message] are cleared when [stop] found the supervisor running
    with a handle and terminating the child raised nothing. *)
Theorem stop_succeeds_and_marks_stopped (o : StopEnv) (st : State) :
  succeeded (fst (stop o st)) = true /\
  is_running (fst (snd (stop o st))) = false /\
  last_status (fst (snd (stop o st))) = "stopped" /\
  (is_running (fst st) = true ->
   carplay_process (fst st) <> None ->
   terminates_cleanly o = true ->
   carplay_process (fst (snd (stop o st))) = None /\
   connected_device (fst (snd (stop o st))) = None /\
   error_message (fst (snd (stop o st))) = None).
Proof.
  destruct (stop_returns o st) as [msg Hr].
  destruct (stop_flag o st) as [Hf Hl].
  split; [rewrite Hr; reflexivity|]. do 2 (split; [assumption|]).
  clear. destruct st as [m w], o as [f1 wr f2 f3]. cbn [fst].
  unfold terminates_cleanly. open_stop. run_monad.
  intros Hrun Hproc Hclean.
  rewrite Hrun. destruct (carplay_process m); [|congruence].
  destruct f1; [discriminate|].
  destruct wr; [| |discriminate]; step_monad.
  - cbn. auto.
  - destruct f2; [discriminate|]. destruct f3; [discriminate|].
    step_monad. cbn. auto.
Qed.

Lemma stop_succeeds_and_marks_stopped_witness :
  connected_device (fst demo_connected) = Some "CarPlay/Android Auto" /\
  carplay_process (fst (snd (stop clean_stop demo_connected))) = None /\
  connected_device (fst (snd (stop clean_stop demo_connected))) = None /\
  error_message (fst (snd (stop clean_stop demo_connected))) = None.
Proof.
  split; [vm_compute; reflexivity|].
  apply (stop_succeeds_and_marks_stopped clean_stop demo_connected).
  - vm_compute. reflexivity.
  - vm_compute. discriminate.
  - vm_compute. reflexivity.
Defined.

(** C2, as the specification words it, fails: after a [start] whose child
    died at once, [stop] finds nothing running and leaves the handle and
    the error text where they are. *)
Lemma stop_after_failed_start_clears_nothing :
  ~ stop_clears_everything (fst (stop clean_stop demo_failed))
      (fst (snd (stop clean_stop demo_failed))).
Proof.
  unfold stop_clears_everything. vm_compute.
  intros (_ & _ & H & _). discriminate H.
Qed.

(** The handler of [stop] does not clear the handle either. *)
Example stop_fault_keeps_handle :
  let st := outcome demo_root demo_world
              [CallStart (no_faults StillAlive) true 800 480] in
  let o := mkStopEnv (Some (Exception "[Errno 1] Operation not permitted"))
             WaitExited None None in
  succeeded (fst (stop o st)) = true /\
  is_running (fst (snd (stop o st))) = false /\
  carplay_process (fst (snd (stop o st))) = Some 0.
Proof. vm_compute. repeat split; reflexivity. Qed.

(** C3, as the code has it.  After construction [carplay_process] is
    [None] and [is_running] is false, and in every state a sequence of
    calls can reach, [is_running] being true implies that
    [carplay_process] is not [None]. *)
Theorem running_implies_handle (root : Path) :
  carplay_process (__init__ root) = None /\
  is_running (__init__ root) = false /\
  forall (w : World) (cs : list Call),
    is_running (fst (outcome root w cs)) = true ->
    carplay_process (fst (outcome root w cs)) <> None.
Proof.
  split; [reflexivity|]. split; [reflexivity|].
  intros w cs. unfold outcome.
  apply (run_handle cs [] (__init__ root, w)).
  unfold handle_when_running. cbn. discriminate.
Qed.

Lemma running_implies_handle_witness :
  carplay_process
    (fst (outcome demo_root demo_world
            [CallStart (no_faults StillAlive) true 800 480])) <> None.
Proof.
  apply (proj2 (proj2 (running_implies_handle demo_root)) demo_world
           [CallStart (no_faults StillAlive) true 800 480]).
  vm_compute. reflexivity.
Defined.

(** C3, as the specification words it, fails: a child that dies within the
    grace period leaves its handle in [carplay_process] while
    [is_running] stays false. *)
Lemma handle_without_running :
  ~ handle_iff_running
      (fst (outcome demo_root demo_world
              [CallStart (no_faults (ExitedEarly StderrEmpty)) true 800 480])).
Proof.
  unfold handle_iff_running. vm_compute. intros [H _].
  assert (false = true) as E by (apply H; discriminate). discriminate E.
Qed.

(** So does an exit seen by the monitor. *)
Example handle_after_exit_seen :
  let m := fst (outcome demo_root demo_world
                  [CallStart (no_faults StillAlive) true 800 480;
                   MonitorRuns [ChildExited]]) in
  is_running m = false /\ carplay_process m = Some 0.
Proof. vm_compute. split; reflexivity. Qed.

(** *** The arguments of [start] reach the settings file only *)

Lemma status_report_ext m w1 w2 :
  path_exists w1 (str_path (executable_path m))
  = path_exists w2 (str_path (executable_path m)) ->
  usb w1 = usb w2 ->
  status_report (m, w1) = status_report (m, w2).
Proof.
  intros Hp Hu. unfold status_report, get_status, is_built, is_dongle_connected.
  run_monad. rewrite Hp, Hu. destruct (usb w2); reflexivity.
Qed.

Lemma start_arguments o fs1 wd1 ht1 fs2 wd2 ht2 st :
  fst (start o fs1 wd1 ht1 st) = fst (start o fs2 wd2 ht2 st) /\
  fst (snd (start o fs1 wd1 ht1 st)) = fst (snd (start o fs2 wd2 ht2 st)).
Proof.
  destruct st as [m w], o as [f1 f2 f3 f4 fate]. open_start. run_monad.
  destruct (is_running m); step_monad; [split; reflexivity|].
  destruct (path_exists w (str_path (executable_path m))); cbn [negb];
    [|split; reflexivity].
  crunch; cbn [fst snd]; (split; [|reflexivity]).
  all: try reflexivity.
  all: do 2 f_equal; apply status_report_ext; [|reflexivity].
  all: unfold path_exists; cbn; rewrite !dom_insert_L; reflexivity.
Qed.

(** C4.  [restart] is observably [stop] followed by [start] with the
    configuration of the preceding [start], whatever that configuration
    was: under the same answers of the operating system, the result
    returned (success, message and status), the status report of the
    state reached and the supervisor's own state are those of [stop]
    followed by [start] called with these arguments. *)
Theorem restart_status_as_stop_then_start (so : StopEnv) (go : StartEnv)
    (st : State) (fullscreen : bool) (width height : Z) :
  fst (restart so go st)
  = fst (stop_then_start so go fullscreen width height st) /\
  status_report (snd (restart so go st))
  = status_report (snd (stop_then_start so go fullscreen width height st)) /\
  fst (snd (restart so go st))
  = fst (snd (stop_then_start so go fullscreen width height st)).
Proof.
  rewrite restart_unfold. unfold stop_then_start, bind.
  destruct (stop_returns so st) as [msg Hs].
  destruct (stop so st) as [r st']. cbn [fst snd] in *. subst r.
  destruct (start_arguments go true 800 480 fullscreen width height st')
    as [Hres Hself].
  split; [exact Hres|]. split; [|exact Hself].
  destruct (start_returns go true 800 480 st') as (b1 & m1 & H1).
  destruct (start_returns go fullscreen width height st') as (b2 & m2 & H2).
  rewrite H1, H2 in Hres. injection Hres as _ _ Hrep. exact Hrep.
Qed.

Example restart_status_demo :
  fst (restart clean_stop (no_faults StillAlive) demo_running)
  = fst (stop_then_start clean_stop (no_faults StillAlive) false 800 480
           demo_running) /\
  dict_get "running" (status_report
                        (snd (restart clean_stop (no_faults StillAlive)
                                demo_running)))
  = Some (PBool true).
Proof. vm_compute. split; reflexivity. Qed.

(** What [restart] does not carry over is the content of the settings
    file, which the status does not show: its [start] is called with the
    defaults, so after [start(fullscreen=False)] it writes a file asking
    for full screen. *)
Example restart_writes_default_settings :
  contains "fullscreen = true" <$>
    files (snd (snd (restart clean_stop (no_faults StillAlive) demo_running)))
      !! "/opt/car/carplay_engine/conf/settings.txt"
  = Some true /\
  contains "fullscreen = false" <$>
    files (snd demo_running) !! "/opt/car/carplay_engine/conf/settings.txt"
  = Some true.
Proof. vm_compute. split; reflexivity. Qed.

(** *** [send_key] on an existing pipe *)

Lemma pipe_exists w p sent :
  pipes w !! p = Some sent -> path_exists w p = true.
Proof.
  intros H. unfold path_exists.
  rewrite (bool_decide_eq_true_2 (p ∈ dom (pipes w))).
  - apply orb_true_r.
  - apply elem_of_dom. eauto.
Qed.

(** A recognised key other than [select]: one byte. *)
Lemma send_key_one_byte key_code code m w sent :
  pipes w !! pipe_path m = Some sent ->
  key_map !! lower key_code = Some code ->
  String.eqb (lower key_code) "select" = false ->
  send_key None key_code (m, w)
  = (inr [("success", PBool true);
          ("message", PStr ("Key " +:+ key_code +:+ " sent"))],
     (m, set_pipes (<[pipe_path m := sent ++ [code]]> (pipes w)) w)).
Proof.
  intros Hp Hk Hs. unfold send_key, open_wb, write_byte. run_monad.
  rewrite (pipe_exists _ _ _ Hp), Hk, Hs. cbn [negb]. run_monad.
  rewrite (bool_decide_eq_true_2 (pipe_path m ∈ dom (pipes w)))
    by (apply elem_of_dom; eauto).
  run_monad. rewrite Hp. run_monad. reflexivity.
Qed.

(** Any spelling of [select]: the byte of [select_down], then 105. *)
Lemma send_key_two_bytes key_code m w sent :
  pipes w !! pipe_path m = Some sent ->
  lower key_code = "select" ->
  send_key None key_code (m, w)
  = (inr [("success", PBool true);
          ("message", PStr ("Key " +:+ key_code +:+ " sent"))],
     (m, set_pipes (<[pipe_path m := sent ++ [104; 105]%Z]> (pipes w)) w)).
Proof.
  intros Hp Hl. unfold send_key, open_wb, write_byte. run_monad.
  rewrite (pipe_exists _ _ _ Hp), Hl. cbn [negb].
  change (key_map !! "select") with (Some 104%Z).
  change (String.eqb "select" "select") with true.
  run_monad.
  rewrite (bool_decide_eq_true_2 (pipe_path m ∈ dom (pipes w)))
    by (apply elem_of_dom; eauto).
  run_monad. rewrite Hp. run_monad. cbn [pipes set_pipes].
  rewrite lookup_insert_eq. run_monad. cbn.
  rewrite insert_insert_eq, <- (assoc_L (++)). reflexivity.
Qed.

Lemma send_key_unknown io_fault key_code m w :
  path_exists w (pipe_path m) = true ->
  key_map !! lower key_code = None ->
  send_key io_fault key_code (m, w)
  = (inr (fail ("Unknown key: " +:+ key_code)), (m, w)).
Proof.
  intros Hp Hk. unfold send_key. run_monad. rewrite Hp, Hk. reflexivity.
Qed.

Lemma lower_ascii_idem c : lower_ascii (lower_ascii c) = lower_ascii c.
Proof. destruct c as [[] [] [] [] [] [] [] []]; reflexivity. Qed.

Lemma lower_idem s : lower (lower s) = lower s.
Proof.
  induction s as [|c s IH]; cbn; [reflexivity|].
  rewrite lower_ascii_idem, IH. reflexivity.
Qed.

Lemma key_map_unknown name :
  ~ In name ["left"; "right"; "select_down"; "select_up"; "select"; "back";
             "home"] ->
  key_map !! name = None.
Proof.
  intros Hn. unfold key_map. apply not_elem_of_list_to_map_1.
  intros Hin. apply Hn. apply list_elem_of_In in Hin. exact Hin.
Qed.

(** C5.  With the named pipe in place (and the writing itself raising
    nothing), [send_key("select")] adds exactly the bytes 104, 105 to what
    the pipe has received, [send_key("left")] adds exactly the byte 100;
    [send_key] with a key whose lower-case form is none of the seven
    names, such as [bogus], returns the failure ['Unknown key: ...'] and
    changes nothing, the pipe included. *)
Theorem send_key_select_left_bogus (m : Manager) (w : World) (sent : list Z)
    (io_fault : option exn) :
  pipes w !! pipe_path m = Some sent ->
  send_key None "select" (m, w)
  = (inr [("success", PBool true); ("message", PStr "Key select sent")],
     (m, set_pipes (<[pipe_path m := sent ++ [104; 105]%Z]> (pipes w)) w)) /\
  send_key None "left" (m, w)
  = (inr [("success", PBool true); ("message", PStr "Key left sent")],
     (m, set_pipes (<[pipe_path m := sent ++ [100]%Z]> (pipes w)) w)) /\
  send_key io_fault "bogus" (m, w)
  = (inr [("success", PBool false); ("message", PStr "Unknown key: bogus")],
     (m, w)) /\
  forall key_code : string,
    ~ In (lower key_code)
         ["left"; "right"; "select_down"; "select_up"; "select"; "back";
          "home"] ->
    send_key io_fault key_code (m, w)
    = (inr [("success", PBool false);
            ("message", PStr ("Unknown key: " +:+ key_code))],
       (m, w)).
Proof.
  intros Hp. split; [|split; [|split]].
  - apply (send_key_two_bytes "select" m w sent Hp). reflexivity.
  - apply (send_key_one_byte "left" 100 m w sent Hp); reflexivity.
  - apply send_key_unknown; [exact (pipe_exists _ _ _ Hp)|reflexivity].
  - intros key_code Hn.
    apply send_key_unknown; [exact (pipe_exists _ _ _ Hp)|].
    apply key_map_unknown. exact Hn.
Qed.

Lemma send_key_select_left_bogus_witness :
  pipes (snd (snd (send_key None "select" (__init__ demo_root, demo_world))))
    !! "/tmp/fastcarplay_pipe" = Some [104; 105]%Z /\
  pipes (snd (snd (send_key None "left" (__init__ demo_root, demo_world))))
    !! "/tmp/fastcarplay_pipe" = Some [100]%Z /\
  succeeded (fst (send_key None "bogus" (__init__ demo_root, demo_world))) = false /\
  send_key None "Volume_Up" (__init__ demo_root, demo_world)
  = (inr [("success", PBool false); ("message", PStr "Unknown key: Volume_Up")],
     (__init__ demo_root, demo_world)).
Proof.
  destruct (send_key_select_left_bogus (__init__ demo_root) demo_world [] None)
    as (H1 & H2 & H3 & H4); [reflexivity|].
  split; [rewrite H1; reflexivity|]. split; [rewrite H2; reflexivity|].
  split; [rewrite H3; reflexivity|].
  apply (H4 "Volume_Up"). vm_compute.
  intros H. repeat (destruct H as [H|H]; [discriminate H|]). exact H.
Defined.

Lemma status_report_fields m w :
  dict_get "running" (status_report (m, w)) = Some (PBool (is_running m)) /\
  dict_get "status" (status_report (m, w)) = Some (PStr (last_status m)) /\
  dict_get "error" (status_report (m, w)) = Some (opt_str (error_message m)).
Proof.
  unfold status_report, get_status, is_built, is_dongle_connected. run_monad.
  destruct (usb w); repeat split; reflexivity.
Qed.

(** C6, as the code has it.  When the child has exited by the end of the
    grace period, [start] returns a failure and leaves [is_running]
    false.  The text it stores as [error_message] is the decoded error
    output when there is some, the fixed text ['Process terminated
    unexpectedly'] when the error output is empty, and the text of the
    decoding error when the output cannot be decoded; the message
    returned ends with that stored text (after ['CarPlay failed to start: ']
    in the first two cases), and the status returned shows it as [error]. *)
Theorem start_child_exited_early (stderr : Captured) (fullscreen : bool)
    (width height : Z) (m : Manager) (w : World) :
  is_running m = false ->
  path_exists w (str_path (executable_path m)) = true ->
  exists (status : pydict) (st' : State),
    start (no_faults (ExitedEarly stderr)) fullscreen width height (m, w)
    = (inr (result false (early_exit_message stderr) status), st') /\
    error_message (fst st') = Some (early_exit_text stderr) /\
    (exists pre, early_exit_message stderr = pre +:+ early_exit_text stderr) /\
    dict_get "error" status = Some (PStr (early_exit_text stderr)) /\
    is_running (fst st') = false.
Proof.
  intros Hr Hb. unfold no_faults. open_start. run_monad.
  rewrite Hr. step_monad. rewrite Hb. cbn [negb]. step_monad.
  destruct stderr; step_monad; cbn [fst snd];
    eexists; eexists; (split; [reflexivity|]); (split; [reflexivity|]);
    (split; [|split; [rewrite (proj2 (proj2 (status_report_fields _ _)));
                      reflexivity|cbn; assumption]]).
  - exists "CarPlay failed to start: ". reflexivity.
  - exists "CarPlay failed to start: ". reflexivity.
  - exists "". reflexivity.
Qed.

Lemma start_child_exited_early_witness :
  exists (status : pydict) (st' : State),
    start (no_faults (ExitedEarly (StderrText "boom"))) true 800 480
      (__init__ demo_root, demo_world)
    = (inr (result false (early_exit_message (StderrText "boom")) status), st') /\
    error_message (fst st') = Some (early_exit_text (StderrText "boom")) /\
    (exists pre, early_exit_message (StderrText "boom")
                 = pre +:+ early_exit_text (StderrText "boom")) /\
    dict_get "error" status = Some (PStr (early_exit_text (StderrText "boom"))) /\
    is_running (fst st') = false.
Proof.
  apply (start_child_exited_early (StderrText "boom") true 800 480
           (__init__ demo_root) demo_world).
  - reflexivity.
  - vm_compute. reflexivity.
Defined.

(** C6, as the specification words it, fails when the child wrote nothing
    to its error output: what is stored as [error_message] is then a
    fixed text, not the (empty) output captured. *)
Lemma early_exit_without_output :
  ~ early_exit_reported ""
      (fst (start (no_faults (ExitedEarly StderrEmpty)) true 800 480
              (__init__ demo_root, demo_world)))
      (fst (snd (start (no_faults (ExitedEarly StderrEmpty)) true 800 480
                   (__init__ demo_root, demo_world)))).
Proof.
  unfold early_exit_reported. intros (_ & _ & H & _).
  vm_compute in H. discriminate H.
Qed.

(** C7.  With the flag false and no executable at [executable_path],
    [start] returns the failure ['FastCarPlay not built. ...'] and leaves
    the supervisor and its surroundings exactly as they were: nothing is
    launched, no settings file is written, the flag is still false. *)
Theorem start_not_built (o : StartEnv) (fullscreen : bool) (width height : Z)
    (m : Manager) (w : World) :
  is_running m = false ->
  path_exists w (str_path (executable_path m)) = false ->
  start o fullscreen width height (m, w)
  = (inr (result false "FastCarPlay not built. Run build script first."
            (status_report (m, w))),
     (m, w)) /\
  contains "not built" "FastCarPlay not built. Run build script first." = true /\
  is_running (fst (snd (start o fullscreen width height (m, w)))) = false.
Proof.
  intros Hr Hb.
  assert (start o fullscreen width height (m, w)
          = (inr (result false "FastCarPlay not built. Run build script first."
                    (status_report (m, w))), (m, w))) as ->.
  { unfold start, is_built. run_monad. rewrite Hr. step_monad.
    rewrite Hb. cbn [negb]. step_monad. reflexivity. }
  cbn [fst snd]. split; [reflexivity|]. split; [reflexivity|assumption].
Qed.

Lemma start_not_built_witness :
  start (no_faults StillAlive) true 800 480 (__init__ demo_root, demo_unbuilt)
  = (inr (result false "FastCarPlay not built. Run build script first."
            (status_report (__init__ demo_root, demo_unbuilt))),
     (__init__ demo_root, demo_unbuilt)) /\
  contains "not built" "FastCarPlay not built. Run build script first." = true /\
  is_running (fst (snd (start (no_faults StillAlive) true 800 480
                          (__init__ demo_root, demo_unbuilt)))) = false.
Proof.
  apply (start_not_built (no_faults StillAlive) true 800 480
           (__init__ demo_root) demo_unbuilt).
  - reflexivity.
  - vm_compute. reflexivity.
Defined.

(** C8.  [start] on a supervisor whose flag is true returns the success
    ['CarPlay already running'] and changes nothing: no second launch, the
    supervisor and its surroundings are as before. *)
Theorem start_already_running (o : StartEnv) (fullscreen : bool) (width height : Z)
    (m : Manager) (w : World) :
  is_running m = true ->
  start o fullscreen width height (m, w)
  = (inr (result true "CarPlay already running" (status_report (m, w))),
     (m, w)) /\
  spawned (snd (snd (start o fullscreen width height (m, w)))) = spawned w.
Proof.
  intros Hr.
  assert (start o fullscreen width height (m, w)
          = (inr (result true "CarPlay already running" (status_report (m, w))),
             (m, w))) as ->.
  { unfold start. run_monad. rewrite Hr. step_monad. reflexivity. }
  split; reflexivity.
Qed.

Lemma start_already_running_witness :
  start (no_faults StillAlive) true 1024 600 (fst demo_running, snd demo_running)
  = (inr (result true "CarPlay already running"
            (status_report (fst demo_running, snd demo_running))),
     (fst demo_running, snd demo_running)) /\
  spawned (snd (snd (start (no_faults StillAlive) true 1024 600
                       (fst demo_running, snd demo_running))))
  = spawned (snd demo_running).
Proof.
  apply (start_already_running (no_faults StillAlive) true 1024 600
           (fst demo_running) (snd demo_running)).
  vm_compute. reflexivity.
Defined.

(** *** The shape of what the methods return *)

Lemma send_key_returns io_fault key_code st :
  exists (b : bool) (msg : string),
    fst (send_key io_fault key_code st)
    = inr [("success", PBool b); ("message", PStr msg)].
Proof.
  destruct st as [m w]. unfold send_key, fail. run_monad.
  destruct (path_exists w (pipe_path m)); cbn [negb]; [|eauto].
  destruct (key_map !! lower key_code) as [code|]; [|eauto].
  run_monad.
  destruct (open_wb io_fault (pipe_path m) (m, w)) as [[e|[]] st1]; [eauto|].
  destruct (write_byte (pipe_path m) code st1) as [[e|[]] st2]; [eauto|].
  destruct (String.eqb (lower key_code) "select").
  - destruct (write_byte (pipe_path m) 105 st2) as [[e|[]] st3]; eauto.
  - eauto.
Qed.

Lemma result_returned b msg (r : (exn + pydict) * State) :
  fst r = inr (result b msg (status_report (snd r))) -> returns_result r.
Proof.
  intros H. exists (result b msg (status_report (snd r))).
  split; [exact H|]. split; [|split; reflexivity].
  exists b, msg, (status_report (snd r)). repeat split.
Qed.

(** C9, as the code has it.  [start], [stop] and [restart] always return
    a dictionary with the three keys [success], [message] and [status],
    holding a boolean, a string and the status report of the state they
    leave.  [send_key] always returns a dictionary with the two keys
    [success] and [message] only, and [get_status] returns the status
    report itself, whose keys are the eight of the report. *)
Theorem shapes_of_results (st : State) (go : StartEnv) (so : StopEnv)
    (fullscreen : bool) (width height : Z) (io_fault : option exn)
    (key_code : string) :
  returns_result (start go fullscreen width height st) /\
  returns_result (stop so st) /\
  returns_result (restart so go st) /\
  (exists (b : bool) (msg : string),
     fst (send_key io_fault key_code st)
     = inr [("success", PBool b); ("message", PStr msg)]) /\
  get_status st = (inr (status_report st), st) /\
  dict_keys (status_report st)
  = ["running"; "built"; "status"; "connected_device"; "dongle_detected";
     "error"; "executable_path"; "settings_path"].
Proof.
  split.
  { destruct (start_returns go fullscreen width height st) as (b & msg & H).
    exact (result_returned b msg _ H). }
  split.
  { destruct (stop_returns so st) as (msg & H).
    exact (result_returned true msg _ H). }
  split.
  { rewrite restart_unfold.
    destruct (start_returns go true 800 480 (snd (stop so st))) as (b & msg & H).
    exact (result_returned b msg _ H). }
  split; [apply send_key_returns|].
  split; [apply get_status_eq|].
  destruct st as [m w].
  unfold status_report, get_status, is_built, is_dongle_connected. run_monad.
  destruct (usb w); reflexivity.
Qed.

(** C9, as the specification words it, fails: what [send_key] returns has
    no [status] entry. *)
Lemma send_key_result_has_no_status :
  ~ exists d, fst (send_key None "left" (__init__ demo_root, demo_world)) = inr d
              /\ result_shaped d.
Proof.
  intros (d & Hd & b & msg & status & _ & _ & Hs).
  vm_compute in Hd. injection Hd as <-. vm_compute in Hs. discriminate Hs.
Qed.

(** Nor is the status report itself of that shape. *)
Example get_status_is_bare :
  dict_get "success" (status_report (__init__ demo_root, demo_world)) = None /\
  dict_get "message" (status_report (__init__ demo_root, demo_world)) = None.
Proof. vm_compute. split; reflexivity. Qed.

(** C10, as the code has it.  [send_key] looks the key up by its
    lower-case form: called with any spelling of a name, it leaves the
    surroundings (the bytes in the pipe included) as the call with the
    lower-case spelling does, and returns the same [success]; any spelling
    of [select] sends the two bytes 104, 105.  The message returned quotes
    the key as it was given. *)
Theorem send_key_ignores_case (io_fault : option exn) (key_code : string)
    (m : Manager) (w : World) :
  snd (send_key io_fault key_code (m, w))
  = snd (send_key io_fault (lower key_code) (m, w)) /\
  succeeded (fst (send_key io_fault key_code (m, w)))
  = succeeded (fst (send_key io_fault (lower key_code) (m, w))) /\
  (forall sent,
     lower key_code = "select" ->
     pipes w !! pipe_path m = Some sent ->
     send_key None key_code (m, w)
     = (inr [("success", PBool true);
             ("message", PStr ("Key " +:+ key_code +:+ " sent"))],
        (m, set_pipes (<[pipe_path m := sent ++ [104; 105]%Z]> (pipes w)) w))).
Proof.
  split; [|split].
  3: { intros sent Hl Hp. apply send_key_two_bytes; assumption. }
  all: unfold send_key; rewrite lower_idem; run_monad.
  all: destruct (path_exists w (pipe_path m)); cbn [negb]; [|reflexivity].
  all: destruct (key_map !! lower key_code) as [code|]; [|reflexivity].
  all: run_monad.
  all: destruct (open_wb io_fault (pipe_path m) (m, w)) as [[e|[]] st1];
         [reflexivity|].
  all: destruct (write_byte (pipe_path m) code st1) as [[e|[]] st2];
         [reflexivity|].
  all: destruct (String.eqb (lower key_code) "select"); try reflexivity.
  all: destruct (write_byte (pipe_path m) 105 st2) as [[e|[]] st3];
         reflexivity.
Qed.

Lemma send_key_ignores_case_witness :
  send_key None "SeLeCt" (__init__ demo_root, demo_world)
  = (inr [("success", PBool true); ("message", PStr "Key SeLeCt sent")],
     (__init__ demo_root,
      set_pipes (<[pipe_path (__init__ demo_root) := [] ++ [104; 105]%Z]>
                   (pipes demo_world)) demo_world)).
Proof.
  apply (send_key_ignores_case None "SeLeCt" (__init__ demo_root) demo_world);
    reflexivity.
Defined.

(** C10, as stated, fails on the result: the message differs with the
    spelling. *)
Lemma send_key_message_keeps_spelling :
  fst (send_key None "LEFT" (__init__ demo_root, demo_world))
  <> fst (send_key None (lower "LEFT") (__init__ demo_root, demo_world)).
Proof. vm_compute. intros H. discriminate H. Qed.


(** ** Further properties of the methods *)

(** *** [stop] *)

Lemma stop_idle o m w :
  is_running m = false \/ carplay_process m = None ->
  stop o (m, w)
  = (inr (result true "CarPlay was not running"
            (status_report (set_last_status "stopped" (set_is_running false m), w))),
     (set_last_status "stopped" (set_is_running false m), w)).
Proof.
  intros H. open_stop. run_monad.
  destruct (is_running m), (carplay_process m); step_monad;
    try reflexivity.
  destruct H; discriminate.
Qed.

(** X1.  [stop] on a supervisor that is not running, or that holds no
    process handle, answers ['CarPlay was not running'] with success; it
    asks for no termination and leaves the surroundings untouched, and of
    the supervisor it sets only [is_running] and [last_status]. *)
Theorem stop_when_not_running (o : StopEnv) (m : Manager) (w : World) :
  is_running m = false \/ carplay_process m = None ->
  stop o (m, w)
  = (inr (result true "CarPlay was not running"
            (status_report (set_last_status "stopped" (set_is_running false m), w))),
     (set_last_status "stopped" (set_is_running false m), w)) /\
  signalled (snd (snd (stop o (m, w)))) = signalled w /\
  carplay_process (fst (snd (stop o (m, w)))) = carplay_process m /\
  connected_device (fst (snd (stop o (m, w)))) = connected_device m /\
  error_message (fst (snd (stop o (m, w)))) = error_message m.
Proof.
  intros H. rewrite (stop_idle o m w H). repeat split.
Qed.

Lemma stop_when_not_running_witness :
  stop clean_stop (fst demo_failed, snd demo_failed)
  = (inr (result true "CarPlay was not running"
            (status_report (set_last_status "stopped"
                              (set_is_running false (fst demo_failed)),
                            snd demo_failed))),
     (set_last_status "stopped" (set_is_running false (fst demo_failed)),
      snd demo_failed)) /\
  signalled (snd (snd (stop clean_stop (fst demo_failed, snd demo_failed))))
  = signalled (snd demo_failed) /\
  carplay_process (fst (snd (stop clean_stop (fst demo_failed, snd demo_failed))))
  = carplay_process (fst demo_failed) /\
  connected_device (fst (snd (stop clean_stop (fst demo_failed, snd demo_failed))))
  = connected_device (fst demo_failed) /\
  error_message (fst (snd (stop clean_stop (fst demo_failed, snd demo_failed))))
  = error_message (fst demo_failed).
Proof.
  apply (stop_when_not_running clean_stop (fst demo_failed) (snd demo_failed)).
  left. vm_compute. reflexivity.
Defined.

(** X2.  [stop] is idempotent: a second [stop], whatever happens during
    either, answers ['CarPlay was not running'] and leaves the supervisor
    and its surroundings exactly as the first [stop] left them. *)
Theorem stop_twice (o1 o2 : StopEnv) (st : State) :
  stop o2 (snd (stop o1 st))
  = (inr (result true "CarPlay was not running"
            (status_report (snd (stop o1 st)))),
     snd (stop o1 st)).
Proof.
  destruct (stop_flag o1 st) as [Hf Hl].
  destruct (snd (stop o1 st)) as [m1 w1]. cbn [fst] in *.
  rewrite (stop_idle o2 m1 w1 (or_introl Hf)).
  replace (set_last_status "stopped" (set_is_running false m1)) with m1;
    [reflexivity|].
  destruct m1. cbn in *. subst. reflexivity.
Qed.

(** X3.  Of the surroundings, [stop] changes nothing but the record of
    termination requests, and it addresses the process whose handle it
    holds only: it sends nothing, or [SIGTERM], or [SIGTERM] then
    [SIGKILL], the latter only when waiting for the exit timed out. *)
Theorem stop_sends_term_then_kill (o : StopEnv) (m : Manager) (w : World) :
  exists sigs : list (nat * Signal),
    snd (snd (stop o (m, w))) = set_signalled (signalled w ++ sigs) w /\
    (sigs = [] \/
     exists p, is_running m = true /\ carplay_process m = Some p /\
       (sigs = [(p, SIGTERM)] \/
        sigs = [(p, SIGTERM); (p, SIGKILL)] /\ wait_result o = WaitTimeout)).
Proof.
  assert (Hnil : set_signalled (signalled w ++ []) w = w).
  { destruct w. unfold set_signalled. cbn. rewrite app_nil_r. reflexivity. }
  destruct o as [f1 wr f2 f3]. open_stop. run_monad.
  destruct (is_running m) eqn:Hr, (carplay_process m) as [p|] eqn:Hp;
    step_monad; try (exists []; rewrite Hnil; split; [reflexivity|left; reflexivity]).
  destruct f1 as [e|]; step_monad.
  { exists []. rewrite Hnil. split; [reflexivity|left; reflexivity]. }
  destruct wr as [| |e]; step_monad.
  - exists [(p, SIGTERM)]. split; [reflexivity|]. right. exists p. auto.
  - destruct f2 as [e|]; step_monad.
    + exists [(p, SIGTERM)]. split; [reflexivity|]. right. exists p. auto.
    + exists [(p, SIGTERM); (p, SIGKILL)].
      split; [|right; exists p; auto].
      destruct f3; step_monad; cbn; rewrite <- (assoc_L (++)); reflexivity.
  - exists [(p, SIGTERM)]. split; [reflexivity|]. right. exists p. auto.
Qed.

(** *** [start] *)

Lemma display_defaulted (environ : gmap string string) :
  let env := if bool_decide ("DISPLAY" ∈ dom environ) then environ
             else <["DISPLAY" := ":0"]> environ in
  env !! "DISPLAY" = Some (default ":0" (environ !! "DISPLAY")) /\
  forall k, k <> "DISPLAY" -> env !! k = environ !! k.
Proof.
  cbn zeta. case_bool_decide as Hd.
  - apply elem_of_dom in Hd as [v Hv]. rewrite Hv. auto.
  - apply not_elem_of_dom in Hd. rewrite Hd. split.
    + apply lookup_insert_eq.
    + intros k Hk. apply lookup_insert_ne. congruence.
Qed.

Lemma written_exists w f k v :
  path_exists (set_files (<[k:=v]> f) w) k = true.
Proof.
  unfold path_exists. cbn.
  rewrite (bool_decide_eq_true_2 (k ∈ dom (<[k:=v]> f))); [reflexivity|].
  apply elem_of_dom. rewrite lookup_insert_eq. eauto.
Qed.

(** X4.  What a launch by [start] looks like.  One call of [start] makes
    at most one launch.  When it makes one, the settings file holds the
    text rendered from the arguments of this call, the command line is the
    executable followed by the settings file, the working directory is the
    engine directory, and the environment is that of the caller except
    that [DISPLAY], when absent, is set to [:0]. *)
Theorem start_launches_at_most_once (o : StartEnv) (fullscreen : bool)
    (width height : Z) (m : Manager) (w : World) :
  spawned (snd (snd (start o fullscreen width height (m, w)))) = spawned w \/
  exists l : Launch,
    spawned (snd (snd (start o fullscreen width height (m, w))))
    = spawned w ++ [l] /\
    cmd l = [str_path (executable_path m); str_path (settings_path m)] /\
    cwd l = str_path (engine_dir m) /\
    env l !! "DISPLAY" = Some (default ":0" (environ w !! "DISPLAY")) /\
    (forall k, k <> "DISPLAY" -> env l !! k = environ w !! k) /\
    files (snd (snd (start o fullscreen width height (m, w))))
      !! str_path (settings_path m)
    = Some (settings_text m fullscreen width height).
Proof.
  destruct o as [f1 f2 f3 f4 fate]. open_start. run_monad.
  destruct (is_running m); step_monad; [left; reflexivity|].
  destruct (path_exists w (str_path (executable_path m))); cbn [negb];
    step_monad; [|left; reflexivity].
  destruct f1; step_monad; [destruct e; step_monad; left; reflexivity|].
  destruct f2; step_monad; [destruct e; step_monad; left; reflexivity|].
  destruct f3; step_monad; [destruct e; step_monad; left; reflexivity|].
  destruct f4; step_monad; [destruct e; step_monad; left; reflexivity|].
  right.
  destruct (display_defaulted (environ w)) as [Hd Hk].
  destruct fate as [|[| |]]; step_monad; cbn [fst snd spawned set_spawned
    set_monitors set_files set_dirs files dirs pipes environ usb signalled
    monitors]; rewrite written_exists;
    (eexists; split; [reflexivity|]); cbn [cmd env cwd];
    rewrite lookup_insert_eq; auto 10.
Qed.

Lemma start_launches_at_most_once_witness :
  exists l : Launch,
    spawned (snd (snd (start (no_faults StillAlive) true 800 480
                         (__init__ demo_root, demo_world))))
    = spawned demo_world ++ [l] /\
    env l !! "DISPLAY" = Some ":0" /\
    env l !! "HOME" = Some "/root".
Proof.
  destruct (start_launches_at_most_once (no_faults StillAlive) true 800 480
              (__init__ demo_root) demo_world)
    as [H|(l & H & _ & _ & Hd & Hk & _)].
  - vm_compute in H. discriminate H.
  - exists l. split; [exact H|]. split.
    + rewrite Hd. reflexivity.
    + rewrite (Hk "HOME") by discriminate. reflexivity.
Defined.

(** X5.  A [start] on a stopped supervisor with the engine built, during
    which nothing raises and whose child survives the grace period,
    answers ['CarPlay started successfully'], sets the flag and the status
    ['running'], clears a previous error, keeps as handle the launch it
    has just made, and starts one monitor thread; pipes, environment and
    termination requests are untouched, and [connected_device] keeps the
    value it had. *)
Theorem start_fresh_success (fullscreen : bool) (width height : Z)
    (m : Manager) (w : World) :
  is_running m = false ->
  path_exists w (str_path (executable_path m)) = true ->
  exists (status : pydict) (m' : Manager) (w' : World),
    start (no_faults StillAlive) fullscreen width height (m, w)
    = (inr (result true "CarPlay started successfully" status), (m', w')) /\
    dict_get "running" status = Some (PBool true) /\
    dict_get "error" status = Some PNone /\
    is_running m' = true /\
    last_status m' = "running" /\
    error_message m' = None /\
    carplay_process m' = Some (length (spawned w)) /\
    connected_device m' = connected_device m /\
    length (spawned w') = S (length (spawned w)) /\
    monitors w' = S (monitors w) /\
    pipes w' = pipes w /\ signalled w' = signalled w /\ environ w' = environ w.
Proof.
  intros Hr Hb. unfold no_faults. open_start. run_monad.
  rewrite Hr. step_monad. rewrite Hb. cbn [negb]. step_monad.
  eexists; eexists; eexists. split; [reflexivity|].
  destruct (status_report_fields
    (set_error_message None (set_last_status "running" (set_is_running true
       (set_carplay_process (Some (length (spawned w))) m))))
    (snd (snd (start (no_faults StillAlive) fullscreen width height (m, w)))))
    as (H1 & _ & H3).
  revert H1 H3. unfold no_faults. open_start. run_monad.
  rewrite Hr. step_monad. rewrite Hb. cbn [negb]. step_monad.
  cbn [fst snd]. intros H1 H3.
  split; [exact H1|]. split; [exact H3|].
  cbn. rewrite length_app. cbn. repeat split; lia.
Qed.

Lemma start_fresh_success_witness :
  exists (status : pydict) (m' : Manager) (w' : World),
    start (no_faults StillAlive) false 1024 600 (fst demo_failed, snd demo_failed)
    = (inr (result true "CarPlay started successfully" status), (m', w')) /\
    dict_get "running" status = Some (PBool true) /\
    dict_get "error" status = Some PNone /\
    is_running m' = true /\
    last_status m' = "running" /\
    error_message m' = None /\
    carplay_process m' = Some (length (spawned (snd demo_failed))) /\
    connected_device m' = connected_device (fst demo_failed) /\
    length (spawned w') = S (length (spawned (snd demo_failed))) /\
    monitors w' = S (monitors (snd demo_failed)) /\
    pipes w' = pipes (snd demo_failed) /\
    signalled w' = signalled (snd demo_failed) /\
    environ w' = environ (snd demo_failed).
Proof.
  apply (start_fresh_success false 1024 600 (fst demo_failed) (snd demo_failed)).
  - vm_compute. reflexivity.
  - vm_compute. reflexivity.
Defined.

(** X6.  A [start] that returns a failure has changed neither the flag,
    which is false, nor [last_status], and has started no monitor thread;
    no [start], failing or not, touches [connected_device], the pipes or
    the record of termination requests. *)
Theorem start_failure_keeps_status (o : StartEnv) (fullscreen : bool)
    (width height : Z) (m : Manager) (w : World) :
  connected_device (fst (snd (start o fullscreen width height (m, w))))
  = connected_device m /\
  pipes (snd (snd (start o fullscreen width height (m, w)))) = pipes w /\
  signalled (snd (snd (start o fullscreen width height (m, w)))) = signalled w /\
  (succeeded (fst (start o fullscreen width height (m, w))) = false ->
   is_running m = false /\
   is_running (fst (snd (start o fullscreen width height (m, w)))) = false /\
   last_status (fst (snd (start o fullscreen width height (m, w))))
   = last_status m /\
   monitors (snd (snd (start o fullscreen width height (m, w)))) = monitors w).
Proof.
  destruct o as [f1 f2 f3 f4 fate]. open_start. run_monad.
  destruct (is_running m) eqn:Hr; step_monad.
  - cbn. repeat split; discriminate.
  - destruct (path_exists w (str_path (executable_path m))); cbn [negb];
      crunch; cbn; repeat split; try assumption; try discriminate.
Qed.

Lemma start_failure_keeps_status_witness :
  is_running (__init__ demo_root) = false /\
  is_running (fst (snd (start (no_faults (ExitedEarly StderrEmpty)) true 800 480
                          (__init__ demo_root, demo_world)))) = false /\
  last_status (fst (snd (start (no_faults (ExitedEarly StderrEmpty)) true 800 480
                           (__init__ demo_root, demo_world))))
  = last_status (__init__ demo_root) /\
  monitors (snd (snd (start (no_faults (ExitedEarly StderrEmpty)) true 800 480
                        (__init__ demo_root, demo_world))))
  = monitors demo_world.
Proof.
  apply (start_failure_keeps_status (no_faults (ExitedEarly StderrEmpty))
           true 800 480 (__init__ demo_root) demo_world).
  vm_compute. reflexivity.
Defined.

(** X7.  When [Popen] raises, [start] returns a failure whose message is
    ['FastCarPlay executable not found'] for a [FileNotFoundError] and the
    text of the exception otherwise, and stores that text as
    [error_message]; nothing is launched and the process handle is the
    one held before, but the settings file has already been rewritten. *)
Theorem start_popen_raises (e : exn) (fate : ChildFate) (fullscreen : bool)
    (width height : Z) (m : Manager) (w : World) :
  is_running m = false ->
  path_exists w (str_path (executable_path m)) = true ->
  exists (status : pydict) (m' : Manager) (w' : World),
    start (mkStartEnv None None None (Some e) fate) fullscreen width height (m, w)
    = (inr (result false (handler_text e) status), (m', w')) /\
    error_message m' = Some (handler_text e) /\
    is_running m' = false /\
    carplay_process m' = carplay_process m /\
    spawned w' = spawned w /\
    files w' = <[str_path (settings_path m) :=
                   settings_text m fullscreen width height]> (files w).
Proof.
  intros Hr Hb. open_start. run_monad.
  rewrite Hr. step_monad. rewrite Hb. cbn [negb]. step_monad.
  destruct e; step_monad; eexists; eexists; eexists;
    (split; [reflexivity|]); cbn; auto.
Qed.

Lemma start_popen_raises_witness :
  exists (status : pydict) (m' : Manager) (w' : World),
    start (mkStartEnv None None None
             (Some (FileNotFoundError "[Errno 2] No such file or directory"))
             StillAlive) true 800 480 (__init__ demo_root, demo_world)
    = (inr (result false
              (handler_text (FileNotFoundError "[Errno 2] No such file or directory"))
              status), (m', w')) /\
    error_message m'
    = Some (handler_text (FileNotFoundError "[Errno 2] No such file or directory")) /\
    is_running m' = false /\
    carplay_process m' = carplay_process (__init__ demo_root) /\
    spawned w' = spawned demo_world /\
    files w' = <[str_path (settings_path (__init__ demo_root)) :=
                   settings_text (__init__ demo_root) true 800 480]>
                 (files demo_world).
Proof.
  apply (start_popen_raises
           (FileNotFoundError "[Errno 2] No such file or directory") StillAlive
           true 800 480 (__init__ demo_root) demo_world).
  - reflexivity.
  - vm_compute. reflexivity.
Defined.

(** X8.  When creating the settings directory raises, [start] returns a
    failure carrying the handler's text, stores it as [error_message], and
    has touched nothing outside the supervisor: no file written, nothing
    launched. *)
Theorem start_mkdir_raises (e : exn) (o : StartEnv) (fullscreen : bool)
    (width height : Z) (m : Manager) (w : World) :
  is_running m = false ->
  path_exists w (str_path (executable_path m)) = true ->
  mkdir_fault o = Some e ->
  start o fullscreen width height (m, w)
  = (inr (result false (handler_text e)
            (status_report (set_error_message (Some (handler_text e)) m, w))),
     (set_error_message (Some (handler_text e)) m, w)).
Proof.
  intros Hr Hb Hf. destruct o as [f1 f2 f3 f4 fate]. cbn in Hf. subst f1.
  open_start. run_monad.
  rewrite Hr. step_monad. rewrite Hb. cbn [negb]. step_monad.
  destruct e; step_monad; reflexivity.
Qed.

Lemma start_mkdir_raises_witness :
  start (mkStartEnv (Some (Exception "[Errno 13] Permission denied")) None None
           None StillAlive) true 800 480 (__init__ demo_root, demo_world)
  = (inr (result false (handler_text (Exception "[Errno 13] Permission denied"))
            (status_report
               (set_error_message
                  (Some (handler_text (Exception "[Errno 13] Permission denied")))
                  (__init__ demo_root), demo_world))),
     (set_error_message
        (Some (handler_text (Exception "[Errno 13] Permission denied")))
        (__init__ demo_root), demo_world)).
Proof.
  apply (start_mkdir_raises (Exception "[Errno 13] Permission denied")
           (mkStartEnv (Some (Exception "[Errno 13] Permission denied")) None
              None None StillAlive)
           true 800 480 (__init__ demo_root) demo_world).
  - reflexivity.
  - vm_compute. reflexivity.
  - reflexivity.
Defined.

(** *** The monitor thread *)

(** X9.  The monitor thread never raises, never touches the surroundings
    or the process handle, and never sets the flag: after a run the flag
    is false if the run saw the child's exit, and what it was otherwise. *)
Theorem monitor_only_lowers_flag (obs : list MonitorObs) (st : State) :
  exists seen : bool,
    fst (_monitor_output obs st) = inr seen /\
    snd (snd (_monitor_output obs st)) = snd st /\
    carplay_process (fst (snd (_monitor_output obs st)))
    = carplay_process (fst st) /\
    is_running (fst (snd (_monitor_output obs st)))
    = is_running (fst st) && negb seen.
Proof.
  destruct (monitor_output_spec obs st) as (Hp & Hw & Hb & Hn).
  assert (exists seen, fst (_monitor_output obs st) = inr seen) as [seen Hs].
  { unfold _monitor_output, try_except.
    destruct (monitor_loop obs st) as [[e|b] st1]; cbn; eauto. }
  exists seen. rewrite Hs in *. repeat split; try assumption.
  destruct seen.
  - rewrite Hb by reflexivity. rewrite andb_false_r. reflexivity.
  - rewrite Hn by discriminate. rewrite andb_true_r. reflexivity.
Qed.

Lemma monitor_loop_idle obs m w :
  is_running m = false \/ carplay_process m = None ->
  monitor_loop obs (m, w) = (inr false, (m, w)).
Proof.
  intros H. destruct obs as [|o rest]; [reflexivity|].
  cbn [monitor_loop]. unfold monitor_turn. run_monad.
  destruct (is_running m), (carplay_process m); run_monad; try reflexivity.
  destruct H; discriminate.
Qed.

(** X10.  On a supervisor whose flag is false, or that holds no handle,
    the monitor loop ends at once: whatever the child would still say,
    nothing is read and nothing changes. *)
Theorem monitor_idle_when_stopped (obs : list MonitorObs) (m : Manager) (w : World) :
  is_running m = false \/ carplay_process m = None ->
  _monitor_output obs (m, w) = (inr false, (m, w)).
Proof.
  intros H. unfold _monitor_output, try_except.
  rewrite (monitor_loop_idle obs m w H). reflexivity.
Qed.

Lemma monitor_idle_when_stopped_witness :
  _monitor_output [Line "Device Connected"; ChildExited]
    (fst demo_failed, snd demo_failed)
  = (inr false, (fst demo_failed, snd demo_failed)).
Proof.
  apply (monitor_idle_when_stopped [Line "Device Connected"; ChildExited]
           (fst demo_failed) (snd demo_failed)).
  left. vm_compute. reflexivity.
Defined.

Lemma monitor_loop_break obs rest : forall st,
  fst (monitor_loop obs st) = inr true ->
  monitor_loop (obs ++ rest) st = monitor_loop obs st.
Proof.
  induction obs as [|o obs IH]; intros st H.
  - cbn in H. discriminate H.
  - cbn [monitor_loop app] in *. unfold bind in *.
    destruct (monitor_turn o st) as [[e|[| |]] st1]; cbn [fst snd] in *;
      try reflexivity.
    apply IH. exact H.
Qed.

(** X11.  Once the monitor has seen the exit of the child it is done:
    what would come next is not looked at, the flag is false and the
    status ['stopped'], and a further run of the loop does nothing. *)
Theorem monitor_done_after_exit (obs rest again : list MonitorObs) (st : State) :
  fst (_monitor_output obs st) = inr true ->
  _monitor_output (obs ++ rest) st = _monitor_output obs st /\
  is_running (fst (snd (_monitor_output obs st))) = false /\
  _monitor_output again (snd (_monitor_output obs st))
  = (inr false, snd (_monitor_output obs st)).
Proof.
  intros H.
  assert (Hl : fst (monitor_loop obs st) = inr true).
  { revert H. unfold _monitor_output, try_except.
    destruct (monitor_loop obs st) as [[e|b] st1]; cbn; [discriminate|auto]. }
  destruct (monitor_output_spec obs st) as (_ & _ & Hb & _).
  specialize (Hb H).
  split; [|split; [exact Hb|]].
  - unfold _monitor_output, try_except.
    rewrite (monitor_loop_break obs rest st Hl). reflexivity.
  - destruct (snd (_monitor_output obs st)) as [m1 w1]. cbn [fst] in Hb.
    unfold _monitor_output at 1. unfold try_except.
    rewrite (monitor_loop_idle again m1 w1 (or_introl Hb)). reflexivity.
Qed.

Lemma monitor_done_after_exit_witness :
  _monitor_output ([Line "Device Connected"; ChildExited] ++ [Line "Error: late"])
    demo_running
  = _monitor_output [Line "Device Connected"; ChildExited] demo_running /\
  is_running (fst (snd (_monitor_output [Line "Device Connected"; ChildExited]
                          demo_running))) = false /\
  _monitor_output [Line "Disconnected"]
    (snd (_monitor_output [Line "Device Connected"; ChildExited] demo_running))
  = (inr false,
     snd (_monitor_output [Line "Device Connected"; ChildExited] demo_running)).
Proof.
  apply (monitor_done_after_exit [Line "Device Connected"; ChildExited]
           [Line "Error: late"] [Line "Disconnected"] demo_running).
  vm_compute. reflexivity.
Defined.

(** *** [send_key] *)

(** X12.  Without anything at the pipe's path, [send_key] fails with ['Key
    pipe not available'] for every key, recognised or not, and changes
    nothing. *)
Theorem send_key_without_pipe (io_fault : option exn) (key_code : string)
    (m : Manager) (w : World) :
  path_exists w (pipe_path m) = false ->
  send_key io_fault key_code (m, w)
  = (inr [("success", PBool false); ("message", PStr "Key pipe not available")],
     (m, w)).
Proof.
  intros H. unfold send_key. run_monad. rewrite H. reflexivity.
Qed.

Lemma send_key_without_pipe_witness :
  send_key None "left" (__init__ demo_root, set_pipes ∅ demo_world)
  = (inr [("success", PBool false); ("message", PStr "Key pipe not available")],
     (__init__ demo_root, set_pipes ∅ demo_world)).
Proof.
  apply (send_key_without_pipe None "left" (__init__ demo_root)
           (set_pipes ∅ demo_world)).
  vm_compute. reflexivity.
Defined.

Lemma key_map_codes name code :
  key_map !! name = Some code -> (0 <= code < 256)%Z.
Proof.
  intros H. unfold key_map in H. apply elem_of_list_to_map_2 in H.
  repeat (apply elem_of_cons in H as [[= -> ->]|H]; [lia|]).
  apply elem_of_nil in H. destruct H.
Qed.

Lemma send_key_open_raises e key_code code m w :
  path_exists w (pipe_path m) = true ->
  key_map !! lower key_code = Some code ->
  send_key (Some e) key_code (m, w) = (inr (fail (str_exn e)), (m, w)).
Proof.
  intros Hp Hk. unfold send_key, open_wb. run_monad. rewrite Hp, Hk.
  cbn [negb]. run_monad. reflexivity.
Qed.

(** X13.  With the named pipe in place, [send_key] succeeds exactly when
    the key, lower-cased, is one of the table and opening the pipe does
    not raise.  When it fails nothing has changed; when it succeeds the
    pipe has received the code of the key, a value that fits a byte,
    followed by 105 when the key is [select], and nothing else. *)
Theorem send_key_succeeds_iff (io_fault : option exn) (key_code : string)
    (m : Manager) (w : World) (sent : list Z) :
  pipes w !! pipe_path m = Some sent ->
  (succeeded (fst (send_key io_fault key_code (m, w))) = true
   <-> io_fault = None /\ is_Some (key_map !! lower key_code)) /\
  (succeeded (fst (send_key io_fault key_code (m, w))) = false ->
   snd (send_key io_fault key_code (m, w)) = (m, w)) /\
  (succeeded (fst (send_key io_fault key_code (m, w))) = true ->
   exists code,
     key_map !! lower key_code = Some code /\ (0 <= code < 256)%Z /\
     snd (send_key io_fault key_code (m, w))
     = (m, set_pipes
             (<[pipe_path m :=
                  sent ++ (if String.eqb (lower key_code) "select"
                           then [code; 105%Z] else [code])]> (pipes w)) w)).
Proof.
  intros Hp. pose proof (pipe_exists _ _ _ Hp) as He.
  destruct (key_map !! lower key_code) as [code|] eqn:Hk.
  2: { rewrite (send_key_unknown io_fault key_code m w He Hk). cbn.
       split; [split; [discriminate|intros [_ [x Hx]]; discriminate]|].
       split; [reflexivity|discriminate]. }
  destruct io_fault as [e|].
  { rewrite (send_key_open_raises e key_code code m w He Hk). cbn.
    split; [split; [discriminate|intros [H _]; discriminate]|].
    split; [reflexivity|discriminate]. }
  destruct (String.eqb (lower key_code) "select") eqn:Hs.
  - apply String.eqb_eq in Hs.
    rewrite (send_key_two_bytes key_code m w sent Hp Hs). cbn.
    split; [split; [eauto|reflexivity]|]. split; [discriminate|].
    intros _. exists code. split; [reflexivity|].
    split; [exact (key_map_codes _ _ Hk)|].
    rewrite Hs in Hk. change (key_map !! "select") with (Some 104%Z) in Hk.
    injection Hk as <-. reflexivity.
  - rewrite (send_key_one_byte key_code code m w sent Hp Hk Hs). cbn.
    split; [split; [eauto|reflexivity]|]. split; [discriminate|].
    intros _. exists code. split; [reflexivity|].
    split; [exact (key_map_codes _ _ Hk)|reflexivity].
Qed.

Lemma send_key_succeeds_iff_witness :
  (succeeded (fst (send_key None "Home" (__init__ demo_root, demo_world))) = true
   <-> @None exn = None /\ is_Some (key_map !! lower "Home")) /\
  (succeeded (fst (send_key None "Home" (__init__ demo_root, demo_world))) = false ->
   snd (send_key None "Home" (__init__ demo_root, demo_world))
   = (__init__ demo_root, demo_world)) /\
  (succeeded (fst (send_key None "Home" (__init__ demo_root, demo_world))) = true ->
   exists code,
     key_map !! lower "Home" = Some code /\ (0 <= code < 256)%Z /\
     snd (send_key None "Home" (__init__ demo_root, demo_world))
     = (__init__ demo_root,
        set_pipes
          (<[pipe_path (__init__ demo_root) :=
               [] ++ (if String.eqb (lower "Home") "select"
                      then [code; 105%Z] else [code])]> (pipes demo_world))
          demo_world)).
Proof.
  apply (send_key_succeeds_iff None "Home" (__init__ demo_root) demo_world []).
  reflexivity.
Defined.

(** X14.  A tap is a press and a release: [send_key("select_down")]
    followed by [send_key("select_up")] leaves the pipe, and everything
    else, as one [send_key("select")] does. *)
Theorem select_is_down_then_up (m : Manager) (w : World) (sent : list Z) :
  pipes w !! pipe_path m = Some sent ->
  snd (send_key None "select_up" (snd (send_key None "select_down" (m, w))))
  = snd (send_key None "select" (m, w)).
Proof.
  intros Hp.
  rewrite (send_key_one_byte "select_down" 104 m w sent Hp eq_refl eq_refl).
  cbn [snd].
  rewrite (send_key_one_byte "select_up" 105 m _ (sent ++ [104%Z]));
    [|cbn; apply lookup_insert_eq|reflexivity|reflexivity].
  rewrite (send_key_two_bytes "select" m w sent Hp eq_refl).
  cbn. rewrite insert_insert_eq, <- (assoc_L (++)). reflexivity.
Qed.

Lemma select_is_down_then_up_witness :
  snd (send_key None "select_up"
         (snd (send_key None "select_down" (__init__ demo_root, demo_world))))
  = snd (send_key None "select" (__init__ demo_root, demo_world)).
Proof.
  apply (select_is_down_then_up (__init__ demo_root) demo_world []).
  reflexivity.
Defined.

(** *** What holds along every sequence of calls *)

Lemma keeps_launches_ret {A} (a : A) : keeps_launches (ret a).
Proof. intros st. reflexivity. Qed.

Lemma keeps_launches_raise {A} e : keeps_launches (@raise A e).
Proof. intros st. reflexivity. Qed.

Lemma keeps_launches_get_self : keeps_launches get_self.
Proof. intros st. reflexivity. Qed.

Lemma keeps_launches_get_world : keeps_launches get_world.
Proof. intros st. reflexivity. Qed.

Lemma keeps_launches_set_files f : keeps_launches (on_world (set_files f)).
Proof. intros st. reflexivity. Qed.

Lemma keeps_launches_set_pipes p : keeps_launches (on_world (set_pipes p)).
Proof. intros st. reflexivity. Qed.

Lemma keeps_launches_may_raise fault : keeps_launches (may_raise fault).
Proof. destruct fault; intros st; reflexivity. Qed.

Lemma keeps_launches_bind {A B} (c : M A) (k : A -> M B) :
  keeps_launches c -> (forall a, keeps_launches (k a)) ->
  keeps_launches (bind c k).
Proof.
  intros Hc Hk st. unfold bind. specialize (Hc st).
  destruct (c st) as [[e|a] st1]; cbn [fst snd] in *; [assumption|].
  rewrite Hk. assumption.
Qed.

Lemma keeps_launches_try {A} (c : M A) (h : exn -> M A) :
  keeps_launches c -> (forall e, keeps_launches (h e)) ->
  keeps_launches (try_except c h).
Proof.
  intros Hc Hh st. unfold try_except. specialize (Hc st).
  destruct (c st) as [[e|a] st1]; cbn [fst snd] in *; [|assumption].
  rewrite Hh. assumption.
Qed.

Create HintDb keeps_launches.
#[local] Hint Resolve keeps_launches_ret keeps_launches_raise
  keeps_launches_get_self keeps_launches_get_world keeps_launches_set_files
  keeps_launches_set_pipes keeps_launches_may_raise : keeps_launches.

Ltac keeps_launches_tac :=
  repeat first
    [ progress auto with keeps_launches
    | apply keeps_launches_bind
    | apply keeps_launches_try
    | match goal with
      | |- forall _, _ => intro
      | |- keeps_launches (match ?x with _ => _ end) => destruct x
      end ].

Lemma send_key_launches io_fault key_code :
  keeps_launches (send_key io_fault key_code).
Proof. unfold send_key, open_wb, write_byte. keeps_launches_tac. Qed.

Lemma starts_app h1 h2 : starts (h1 ++ h2) = starts h1 + starts h2.
Proof.
  induction h1 as [|[] h1 IH]; cbn; rewrite ?IH; reflexivity.
Qed.

Ltac in_range :=
  unfold status_in_range, status_values in *; cbn in *; intuition auto.

Lemma start_steady m0 n0 h o fullscreen width height st :
  steady m0 n0 h st ->
  steady m0 n0 (h ++ [Started (succeeded (fst (start o fullscreen width height st)))])
    (snd (start o fullscreen width height st)).
Proof.
  unfold steady, same_paths, handle_is_latest.
  rewrite starts_app. cbn [starts].
  destruct st as [m w], o as [f1 f2 f3 f4 fate]. cbn [fst snd].
  intros (Hp & Hs & Hh & Hn).
  open_start. run_monad.
  destruct (is_running m); step_monad.
  - cbn. split; [tauto|]. split; [assumption|]. split; [assumption|lia].
  - destruct (path_exists w (str_path (executable_path m))); cbn [negb];
      crunch; cbn; rewrite ?length_app; cbn;
      (split; [tauto|]); (split; [in_range|]);
      (split; [|lia]); try assumption.
    all: intros p [= <-]; lia.
Qed.

Lemma stop_steady m0 n0 h o st :
  steady m0 n0 h st -> steady m0 n0 (h ++ [Stopped]) (snd (stop o st)).
Proof.
  unfold steady, same_paths, handle_is_latest.
  rewrite starts_app. cbn [starts].
  destruct st as [m w], o as [f1 wr f2 f3]. cbn [fst snd].
  intros (Hp & Hs & Hh & Hn).
  open_stop. run_monad.
  destruct (is_running m), (carplay_process m) eqn:Hc; crunch; cbn;
    (split; [tauto|]); (split; [in_range|]);
    (split; [|lia]);
    first [assumption | intros p Hq; apply Hh; congruence | intros p [=]].
Qed.

Lemma monitor_turn_steady m0 o st :
  same_paths (fst st) m0 -> status_in_range (fst st) ->
  same_paths (fst (snd (monitor_turn o st))) m0 /\
  status_in_range (fst (snd (monitor_turn o st))).
Proof.
  unfold same_paths. destruct st as [m w]. cbn [fst].
  intros Hp Hs. unfold monitor_turn. run_monad.
  destruct (is_running m), (carplay_process m); run_monad; try tauto.
  destruct o; run_monad; cbn; try tauto; try (split; [tauto|in_range]).
  destruct (contains "Connected" (strip text));
    [| destruct (contains "Disconnected" (strip text));
       [| destruct (contains "Error" (strip text))]];
    run_monad; cbn; (split; [tauto|in_range]).
Qed.

Lemma monitor_loop_steady m0 obs : forall st,
  same_paths (fst st) m0 -> status_in_range (fst st) ->
  same_paths (fst (snd (monitor_loop obs st))) m0 /\
  status_in_range (fst (snd (monitor_loop obs st))).
Proof.
  induction obs as [|o obs IH]; intros st Hp Hs; [cbn; tauto|].
  cbn [monitor_loop]. unfold bind.
  destruct (monitor_turn_steady m0 o st Hp Hs) as [Hp1 Hs1].
  destruct (monitor_turn o st) as [[e|[| |]] st1]; cbn [fst snd] in *;
    try tauto.
  apply IH; assumption.
Qed.

Lemma perform_steady m0 n0 c h st :
  steady m0 n0 h st ->
  steady m0 n0 (h ++ fst (perform c st)) (snd (perform c st)).
Proof.
  intros Inv.
  destruct c as [o fs wd ht|o|so go|io k| |obs|f d p e u]; cbn [perform].
  - pose proof (start_steady m0 n0 h o fs wd ht st Inv) as H.
    destruct (start o fs wd ht st) as [r st']. exact H.
  - pose proof (stop_steady m0 n0 h o st Inv) as H.
    destruct (stop o st) as [r st']. exact H.
  - rewrite restart_unfold.
    pose proof (stop_steady m0 n0 h so st Inv) as H1.
    pose proof (start_steady m0 n0 (h ++ [Stopped]) go true 800 480 _ H1) as H2.
    destruct (start go true 800 480 (snd (stop so st))) as [r st'].
    cbn [fst snd] in *. rewrite <- (assoc_L (++)) in H2. exact H2.
  - cbn [fst snd]. rewrite app_nil_r.
    destruct Inv as (Hp & Hs & Hh & Hn). unfold steady, handle_is_latest.
    rewrite send_key_self, send_key_launches.
    split; [assumption|]. split; [assumption|]. split; [|assumption].
    intros p Hq. rewrite send_key_self in Hq. rewrite send_key_launches.
    apply Hh. exact Hq.
  - cbn [fst snd]. rewrite app_nil_r, get_status_eq. exact Inv.
  - destruct Inv as (Hp & Hs & Hh & Hn).
    destruct (monitor_output_spec obs st) as (Hc & Hw & _ & _).
    assert (Hps : same_paths (fst (snd (_monitor_output obs st))) m0 /\
                  status_in_range (fst (snd (_monitor_output obs st)))).
    { unfold _monitor_output, try_except.
      pose proof (monitor_loop_steady m0 obs st Hp Hs) as H.
      destruct (monitor_loop obs st) as [[e|b] st1]; exact H. }
    destruct (_monitor_output obs st) as [r st']. cbn [fst snd] in *.
    unfold steady, handle_is_latest. rewrite Hc, Hw.
    split; [tauto|]. split; [tauto|]. split; [exact Hh|].
    rewrite starts_app. lia.
  - cbn [fst snd]. rewrite app_nil_r. exact Inv.
Qed.

Lemma run_steady m0 n0 cs : forall h st,
  steady m0 n0 h st ->
  steady m0 n0 (fst (run cs h st)) (snd (run cs h st)).
Proof.
  induction cs as [|c cs IH]; intros h st Inv; cbn [run]; [assumption|].
  pose proof (perform_steady m0 n0 c h st Inv) as Hc.
  destruct (perform c st) as [e st']. apply IH. exact Hc.
Qed.

Lemma fresh_steady root w :
  steady (__init__ root) (length (spawned w)) [] (__init__ root, w).
Proof.
  unfold steady, same_paths, handle_is_latest. cbn.
  split; [tauto|]. split; [in_range|]. split; [discriminate|lia].
Qed.

(** X15.  The paths a supervisor works with (project root, engine
    directory, executable, settings file, pipe) are fixed at construction:
    no sequence of calls changes any of them. *)
Theorem paths_never_change (root : Path) (w : World) (cs : list Call) :
  same_paths (fst (outcome root w cs)) (__init__ root).
Proof.
  exact (proj1 (run_steady _ _ cs [] _ (fresh_steady root w))).
Qed.

(** X16.  Whatever the calls and whatever the child prints, [last_status]
    is one of ['stopped'], ['running'], ['connected'], ['waiting'], and
    [connected_device] is [None] or ['CarPlay/Android Auto']. *)
Theorem status_stays_in_range (root : Path) (w : World) (cs : list Call) :
  In (last_status (fst (outcome root w cs)))
     ["stopped"; "running"; "connected"; "waiting"] /\
  (connected_device (fst (outcome root w cs)) = None \/
   connected_device (fst (outcome root w cs)) = Some "CarPlay/Android Auto").
Proof.
  exact (proj1 (proj2 (run_steady _ _ cs [] _ (fresh_steady root w)))).
Qed.

(** X17.  The handle a supervisor holds is always that of the most recent
    launch it made: after any sequence of calls, [carplay_process] is
    [None] or the rank of the last entry of the launches. *)
Theorem handle_is_most_recent_launch (root : Path) (w : World) (cs : list Call)
    (p : nat) :
  carplay_process (fst (outcome root w cs)) = Some p ->
  S p = length (spawned (snd (outcome root w cs))).
Proof.
  exact (proj1 (proj2 (proj2 (run_steady _ _ cs [] _ (fresh_steady root w)))) p).
Qed.

Lemma handle_is_most_recent_launch_witness :
  S 1 = length (spawned (snd (outcome demo_root demo_world
                                [CallStart (no_faults StillAlive) true 800 480;
                                 CallRestart clean_stop (no_faults StillAlive)]))).
Proof.
  apply (handle_is_most_recent_launch demo_root demo_world
           [CallStart (no_faults StillAlive) true 800 480;
            CallRestart clean_stop (no_faults StillAlive)] 1).
  vm_compute. reflexivity.
Defined.

(** X18.  Only [start] launches: after any sequence of calls the number of
    launches made is at most the number of [start]s completed, a
    [restart] counting for one; [stop], [send_key], [get_status] and the
    monitor never launch anything. *)
Theorem launches_bounded_by_starts (root : Path) (w : World) (cs : list Call) :
  length (spawned (snd (outcome root w cs)))
  <= length (spawned w) + starts (history root w cs).
Proof.
  exact (proj2 (proj2 (proj2 (run_steady _ _ cs [] _ (fresh_steady root w))))).
Qed.

(** *** The settings file *)

(** X19.  [_write_settings] rewrites the settings file as a whole: when
    nothing raises, the file holds the text of this call whatever it held
    before, every other file is as it was, and writing one configuration
    after another leaves exactly what writing the second alone leaves. *)
Theorem write_settings_replaces (fs1 fs2 : bool) (wd1 ht1 wd2 ht2 : Z)
    (m : Manager) (w : World) :
  files (snd (snd (_write_settings None None fs2 wd2 ht2 (m, w))))
    !! str_path (settings_path m)
  = Some (settings_text m fs2 wd2 ht2) /\
  (forall p, p <> str_path (settings_path m) ->
     files (snd (snd (_write_settings None None fs2 wd2 ht2 (m, w)))) !! p
     = files w !! p) /\
  _write_settings None None fs2 wd2 ht2
    (snd (_write_settings None None fs1 wd1 ht1 (m, w)))
  = _write_settings None None fs2 wd2 ht2 (m, w).
Proof.
  unfold _write_settings, mkdir. run_monad.
  unfold set_files, set_dirs.
  cbn [files dirs pipes environ usb spawned signalled monitors].
  split; [apply lookup_insert_eq|].
  split; [intros p Hp; apply lookup_insert_ne; congruence|].
  rewrite insert_insert_eq.
  set (X := list_to_set _ : gset string).
  rewrite !(assoc_L (∪)), !(idemp_L (∪) X).
  reflexivity.
Qed.

Lemma write_settings_replaces_witness :
  files (snd (snd (_write_settings None None true 800 480
                     (__init__ demo_root, demo_world))))
    !! "/opt/car/carplay_engine/out/app"
  = files demo_world !! "/opt/car/carplay_engine/out/app".
Proof.
  apply (proj1 (proj2 (write_settings_replaces true true 800 480 800 480
                         (__init__ demo_root) demo_world))).
  vm_compute. intros H. discriminate H.
Defined.

Lemma contains_nl_cons c s :
  contains nl (String c s) = Ascii.eqb (ascii_of_nat 10) c || contains nl s.
Proof. cbn. rewrite andb_true_r. reflexivity. Qed.

Lemma contains_nl_app a b :
  contains nl (a +:+ b) = contains nl a || contains nl b.
Proof.
  induction a as [|c a IH].
  - change ("" +:+ b) with b. destruct b; reflexivity.
  - change (String c a +:+ b) with (String c (a +:+ b)).
    rewrite !contains_nl_cons, IH. apply orb_assoc.
Qed.

Lemma cut_at_newline s1 : forall s2 r1 r2,
  contains nl s1 = false -> contains nl s2 = false ->
  s1 +:+ nl +:+ r1 = s2 +:+ nl +:+ r2 -> s1 = s2 /\ r1 = r2.
Proof.
  induction s1 as [|c s1 IH]; intros [|d s2] r1 r2 H1 H2 E.
  - cbn in E. injection E as E. auto.
  - change (String (ascii_of_nat 10) r1 = String d (s2 +:+ nl +:+ r2)) in E.
    injection E as <- _.
    rewrite contains_nl_cons, Ascii.eqb_refl in H2. discriminate H2.
  - change (String c (s1 +:+ nl +:+ r1) = String (ascii_of_nat 10) r2) in E.
    injection E as -> _.
    rewrite contains_nl_cons, Ascii.eqb_refl in H1. discriminate H1.
  - change (String c (s1 +:+ nl +:+ r1) = String d (s2 +:+ nl +:+ r2)) in E.
    injection E as <- E.
    rewrite contains_nl_cons in H1, H2.
    apply orb_false_elim in H1 as [_ H1]. apply orb_false_elim in H2 as [_ H2].
    destruct (IH s2 r1 r2 H1 H2 E) as [-> ->]. auto.
Qed.

Lemma unlines_cons_inj l1 l2 r1 r2 :
  contains nl l1 = false -> contains nl l2 = false ->
  unlines (l1 :: r1) = unlines (l2 :: r2) ->
  l1 = l2 /\ unlines r1 = unlines r2.
Proof. intros H1 H2 E. cbn [unlines] in E. eapply cut_at_newline; eauto. Qed.

Lemma digits_no_nl d : contains nl (NilEmpty.string_of_uint d) = false.
Proof.
  induction d; cbn [NilEmpty.string_of_uint]; [reflexivity|..];
    rewrite contains_nl_cons, IHd; reflexivity.
Qed.

Lemma str_int_no_nl z : contains nl (str_int z) = false.
Proof.
  unfold str_int, NilZero.string_of_int, NilZero.string_of_uint.
  destruct (Z.to_int z) as [d|d]; destruct d;
    rewrite ?contains_nl_cons, ?digits_no_nl; reflexivity.
Qed.

Lemma str_int_inj a b : str_int a = str_int b -> a = b.
Proof.
  assert (Hn : forall z, Z.to_int z <> Decimal.Pos Decimal.Nil /\
                         Z.to_int z <> Decimal.Neg Decimal.Nil).
  { intros [|p|p]; cbn; split; try discriminate;
      intros [= H]; exact (DecimalPos.Unsigned.to_uint_nonnil p H). }
  unfold str_int. intros E.
  apply DecimalZ.to_int_inj.
  assert (Some (Z.to_int a) = Some (Z.to_int b)) as [= H]; [|exact H].
  rewrite <- (NilZero.isi (Z.to_int a)), <- (NilZero.isi (Z.to_int b)), E;
    try reflexivity; apply Hn.
Qed.

(** X20.  The settings text determines the configuration it was rendered
    from: for one supervisor, two calls produce the same text only if
    they agree on [fullscreen], [width] and [height]. *)
Theorem settings_text_determines_configuration (m : Manager)
    (fs1 fs2 : bool) (wd1 ht1 wd2 ht2 : Z) :
  settings_text m fs1 wd1 ht1 = settings_text m fs2 wd2 ht2 ->
  fs1 = fs2 /\ wd1 = wd2 /\ ht1 = ht2.
Proof.
  unfold settings_text. intros E.
  do 4 (apply unlines_cons_inj in E as [_ E]; [|reflexivity|reflexivity]).
  apply unlines_cons_inj in E as [Ew E];
    [|rewrite contains_nl_app, str_int_no_nl; reflexivity
     |rewrite contains_nl_app, str_int_no_nl; reflexivity].
  apply unlines_cons_inj in E as [Eh E];
    [|rewrite contains_nl_app, str_int_no_nl; reflexivity
     |rewrite contains_nl_app, str_int_no_nl; reflexivity].
  do 2 (apply unlines_cons_inj in E as [_ E]; [|reflexivity|reflexivity]).
  apply unlines_cons_inj in E as [Ef _];
    [|destruct fs1; reflexivity|destruct fs2; reflexivity].
  apply (inj (String.append "width = ")) in Ew.
  apply (inj (String.append "height = ")) in Eh.
  apply str_int_inj in Ew. apply str_int_inj in Eh.
  split; [|auto]. destruct fs1, fs2; (reflexivity || discriminate Ef).
Qed.

Lemma settings_text_determines_configuration_witness :
  true = true /\ 800%Z = 800%Z /\ 480%Z = 480%Z.
Proof.
  apply (settings_text_determines_configuration (__init__ demo_root)
           true true 800 480 800 480).
  reflexivity.
Defined.

(** *** The flag and the status *)

Lemma start_flag_status o fullscreen width height st :
  flag_matches_status (fst st) ->
  flag_matches_status (fst (snd (start o fullscreen width height st))).
Proof.
  unfold flag_matches_status.
  destruct st as [m w], o as [f1 f2 f3 f4 fate]. cbn [fst snd]. intros Inv.
  open_start. run_monad.
  destruct (is_running m) eqn:Hr; step_monad.
  - cbn. rewrite Hr. exact Inv.
  - destruct (path_exists w (str_path (executable_path m))); cbn [negb];
      crunch; cbn; rewrite ?Hr;
      first [exact Inv | split; intros; discriminate].
Qed.

Lemma stop_flag_status o st :
  flag_matches_status (fst (snd (stop o st))).
Proof.
  unfold flag_matches_status. destruct (stop_flag o st) as [-> ->].
  split; reflexivity.
Qed.

Lemma monitor_turn_flag_status o st :
  flag_matches_status (fst st) ->
  flag_matches_status (fst (snd (monitor_turn o st))).
Proof.
  unfold flag_matches_status. destruct st as [m w]. cbn [fst]. intros Inv.
  unfold monitor_turn. run_monad.
  destruct (is_running m) eqn:Hr, (carplay_process m); run_monad;
    rewrite ?Hr; try exact Inv.
  destruct o; run_monad; cbn; rewrite ?Hr; try exact Inv;
    try (split; reflexivity).
  destruct (contains "Connected" (strip text));
    [| destruct (contains "Disconnected" (strip text));
       [| destruct (contains "Error" (strip text))]];
    run_monad; cbn; rewrite ?Hr;
    first [exact Inv | split; intros; discriminate].
Qed.

Lemma monitor_loop_flag_status obs : forall st,
  flag_matches_status (fst st) ->
  flag_matches_status (fst (snd (monitor_loop obs st))).
Proof.
  induction obs as [|o obs IH]; intros st Inv; [exact Inv|].
  cbn [monitor_loop]. unfold bind.
  pose proof (monitor_turn_flag_status o st Inv) as H1.
  destruct (monitor_turn o st) as [[e|[| |]] st1]; cbn [fst snd] in *;
    try exact H1.
  apply IH. exact H1.
Qed.

Lemma perform_flag_status c st :
  flag_matches_status (fst st) ->
  flag_matches_status (fst (snd (perform c st))).
Proof.
  intros Inv.
  destruct c as [o fs wd ht|o|so go|io k| |obs|f d p e u]; cbn [perform].
  - pose proof (start_flag_status o fs wd ht st Inv) as H.
    destruct (start o fs wd ht st) as [r st']. exact H.
  - pose proof (stop_flag_status o st) as H.
    destruct (stop o st) as [r st']. exact H.
  - rewrite restart_unfold.
    pose proof (start_flag_status go true 800 480 _ (stop_flag_status so st)) as H.
    destruct (start go true 800 480 (snd (stop so st))) as [r st']. exact H.
  - cbn [fst snd]. rewrite send_key_self. exact Inv.
  - cbn [fst snd]. rewrite get_status_eq. exact Inv.
  - assert (H : flag_matches_status (fst (snd (_monitor_output obs st)))).
    { unfold _monitor_output, try_except.
      pose proof (monitor_loop_flag_status obs st Inv) as H.
      destruct (monitor_loop obs st) as [[e|b] st1]; exact H. }
    destruct (_monitor_output obs st) as [r st']. exact H.
  - exact Inv.
Qed.

Lemma run_flag_status cs : forall h st,
  flag_matches_status (fst st) ->
  flag_matches_status (fst (snd (run cs h st))).
Proof.
  induction cs as [|c cs IH]; intros h st Inv; cbn [run]; [exact Inv|].
  pose proof (perform_flag_status c st Inv) as Hc.
  destruct (perform c st) as [e st']. apply IH. exact Hc.
Qed.

(** X21.  After any sequence of calls the flag is false exactly when
    [last_status] is ['stopped']: the two are always changed together. *)
Theorem stopped_iff_not_running (root : Path) (w : World) (cs : list Call) :
  is_running (fst (outcome root w cs)) = false
  <-> last_status (fst (outcome root w cs)) = "stopped".
Proof.
  apply (run_flag_status cs [] (__init__ root, w)).
  split; reflexivity.
Qed.

(** *** [restart] *)

(** X22.  On a supervisor that is not running, in whatever state the
    calls before have left it, [restart] is [start] with the default
    arguments: its [stop] finds nothing to do and changes nothing. *)
Theorem restart_when_stopped (root : Path) (w : World) (cs : list Call)
    (so : StopEnv) (go : StartEnv) :
  is_running (fst (outcome root w cs)) = false ->
  restart so go (outcome root w cs) = start go true 800 480 (outcome root w cs).
Proof.
  intros Hr. rewrite restart_unfold. f_equal.
  pose proof (run_flag_status cs [] (__init__ root, w)
                (conj (fun _ => eq_refl) (fun _ => eq_refl))) as Hs.
  unfold outcome in *.
  destruct (snd (run cs [] (__init__ root, w))) as [m1 w1]. cbn [fst] in *.
  rewrite (stop_idle so m1 w1 (or_introl Hr)). cbn [snd]. f_equal.
  pose proof (proj1 Hs Hr) as Hl. destruct m1. cbn in *. subst. reflexivity.
Qed.

Lemma restart_when_stopped_witness :
  restart clean_stop (no_faults StillAlive)
    (outcome demo_root demo_world
       [CallStart (no_faults StillAlive) true 800 480;
        MonitorRuns [Line "Device Connected"; ChildExited]])
  = start (no_faults StillAlive) true 800 480
      (outcome demo_root demo_world
         [CallStart (no_faults StillAlive) true 800 480;
          MonitorRuns [Line "Device Connected"; ChildExited]]).
Proof.
  apply (restart_when_stopped demo_root demo_world
           [CallStart (no_faults StillAlive) true 800 480;
            MonitorRuns [Line "Device Connected"; ChildExited]]
           clean_stop (no_faults StillAlive)).
  vm_compute. reflexivity.
Defined.

(** X23.  On a running supervisor, a [restart] whose [stop] raises nothing
    and whose new child survives replaces the process: the old handle has
    been sent [SIGTERM], the handle held afterwards is that of a new
    launch, the flag is true again, and the device and the error of the
    old run are forgotten. *)
Theorem restart_replaces_process (so : StopEnv) (m : Manager) (w : World)
    (p : nat) :
  is_running m = true ->
  carplay_process m = Some p ->
  path_exists w (str_path (executable_path m)) = true ->
  terminates_cleanly so = true ->
  exists (status : pydict) (m' : Manager) (w' : World),
    restart so (no_faults StillAlive) (m, w)
    = (inr (result true "CarPlay started successfully" status), (m', w')) /\
    carplay_process m' = Some (length (spawned w)) /\
    length (spawned w') = S (length (spawned w)) /\
    is_running m' = true /\
    last_status m' = "running" /\
    connected_device m' = None /\
    error_message m' = None /\
    (signalled w' = signalled w ++ [(p, SIGTERM)] \/
     signalled w' = signalled w ++ [(p, SIGTERM); (p, SIGKILL)]).
Proof.
  intros Hr Hp Hb Hc. destruct so as [f1 wr f2 f3].
  unfold terminates_cleanly in Hc. cbn in Hc.
  destruct f1; [discriminate|].
  unfold restart, no_faults. open_stop. open_start. run_monad.
  rewrite Hr, Hp. step_monad.
  destruct wr as [| |e]; [| |discriminate]; step_monad.
  - cbn [is_running executable_path set_is_running set_carplay_process
         set_last_status set_connected_device set_error_message].
    step_monad.
    unfold path_exists in *.
    cbn [files dirs pipes set_signalled executable_path set_is_running
         set_carplay_process set_last_status set_connected_device
         set_error_message].
    rewrite Hb. cbn [negb]. step_monad.
    eexists; eexists; eexists. split; [reflexivity|].
    cbn. rewrite length_app. cbn. repeat split; auto; lia.
  - destruct f2; [discriminate|]. destruct f3; [discriminate|]. step_monad.
    cbn [is_running executable_path set_is_running set_carplay_process
         set_last_status set_connected_device set_error_message].
    step_monad.
    unfold path_exists in *.
    cbn [files dirs pipes set_signalled executable_path set_is_running
         set_carplay_process set_last_status set_connected_device
         set_error_message].
    rewrite Hb. cbn [negb]. step_monad.
    eexists; eexists; eexists. split; [reflexivity|].
    cbn. rewrite length_app, <- (assoc_L (++)). cbn.
    repeat split; auto; lia.
Qed.

Lemma restart_replaces_process_witness :
  exists (status : pydict) (m' : Manager) (w' : World),
    restart clean_stop (no_faults StillAlive) (fst demo_connected, snd demo_connected)
    = (inr (result true "CarPlay started successfully" status), (m', w')) /\
    carplay_process m' = Some (length (spawned (snd demo_connected))) /\
    length (spawned w') = S (length (spawned (snd demo_connected))) /\
    is_running m' = true /\
    last_status m' = "running" /\
    connected_device m' = None /\
    error_message m' = None /\
    (signalled w' = signalled (snd demo_connected) ++ [(0, SIGTERM)] \/
     signalled w' = signalled (snd demo_connected) ++ [(0, SIGTERM); (0, SIGKILL)]).
Proof.
  apply (restart_replaces_process clean_stop (fst demo_connected)
           (snd demo_connected) 0);
    vm_compute; reflexivity.
Defined.

(** *** Dongle detection *)

Lemma startswith_spec p : forall s,
  startswith p s = true <-> exists post, s = p +:+ post.
Proof.
  induction p as [|a p IH]; intros s.
  - cbn. split; [intros _; exists s; reflexivity|reflexivity].
  - destruct s as [|b s].
    + cbn. split; [discriminate|intros [post H]; discriminate H].
    + change (String a p +:+ ?x) with (String a (p +:+ x)).
      cbn [startswith]. rewrite andb_true_iff, IH. split.
      * intros [Hab [post ->]]. apply Ascii.eqb_eq in Hab as ->.
        exists post. reflexivity.
      * intros [post H]. change (String a p +:+ post) with (String a (p +:+ post)) in H.
        injection H as -> ->. split; [apply Ascii.eqb_refl|eauto].
Qed.

Lemma contains_spec needle : forall hay,
  contains needle hay = true <-> occurs_in needle hay.
Proof.
  unfold occurs_in. induction hay as [|c hay IH].
  - cbn [contains]. rewrite orb_false_r, startswith_spec. split.
    + intros [post ->]. exists "", post. reflexivity.
    + intros ([|d pre] & post & H); [exists post; exact H|discriminate H].
  - cbn [contains]. rewrite orb_true_iff, startswith_spec, IH. split.
    + intros [[post ->]|(pre & post & ->)].
      * exists "", post. reflexivity.
      * exists (String c pre), post. reflexivity.
    + intros ([|d pre] & post & H).
      * left. exists post. exact H.
      * right. change (String d pre +:+ ?x) with (String d (pre +:+ x)) in H.
        injection H as -> ->. eauto.
Qed.

Lemma dongle_entry m w :
  dict_get "dongle_detected" (status_report (m, w))
  = Some (PBool match usb w with
                | inr stdout =>
                    existsb (fun dongle_id => contains dongle_id stdout) dongle_ids
                | inl _ => false
                end).
Proof.
  unfold status_report, get_status, is_built, is_dongle_connected. run_monad.
  destruct (usb w); reflexivity.
Qed.

(** X24.  The status reports a dongle exactly when [lsusb] could be run
    and one of the vendor prefixes [1314:], [1234:], [154b:] occurs
    somewhere in its output; a listing that cannot be obtained counts as
    no dongle. *)
Theorem dongle_detected_iff (m : Manager) (w : World) :
  dict_get "dongle_detected" (status_report (m, w)) = Some (PBool true)
  <-> exists stdout id,
        usb w = inr stdout /\
        In id ["1314:"; "1234:"; "154b:"] /\
        occurs_in id stdout.
Proof.
  rewrite dongle_entry. destruct (usb w) as [e|stdout].
  - split; [discriminate|intros (s & i & H & _); discriminate H].
  - split.
    + intros H0.
      assert (H : existsb (fun dongle_id => contains dongle_id stdout)
                    dongle_ids = true) by congruence.
      apply existsb_exists in H as (id & Hin & Hc).
      exists stdout, id. split; [reflexivity|]. split; [exact Hin|].
      apply contains_spec. exact Hc.
    + intros (s & id & [= <-] & Hin & Ho). do 2 f_equal.
      apply existsb_exists. exists id. split; [exact Hin|].
      apply contains_spec. exact Ho.
Qed.

(** *** What the caller is told *)

(** X25.  The status handed back with a result agrees with the result:
    after [start] its [running] entry equals the [success] returned, and
    after [stop] it shows [running] false and the status ['stopped']. *)
Theorem returned_status_agrees (go : StartEnv) (so : StopEnv)
    (fullscreen : bool) (width height : Z) (st : State) :
  (exists b msg status,
     fst (start go fullscreen width height st) = inr (result b msg status) /\
     dict_get "running" status = Some (PBool b)) /\
  (exists msg status,
     fst (stop so st) = inr (result true msg status) /\
     dict_get "running" status = Some (PBool false) /\
     dict_get "status" status = Some (PStr "stopped")).
Proof.
  split.
  - destruct (start_returns go fullscreen width height st) as (b & msg & H).
    pose proof (start_flag go fullscreen width height st) as Hf.
    rewrite H in Hf. cbn in Hf.
    destruct (snd (start go fullscreen width height st)) as [m1 w1].
    exists b, msg, (status_report (m1, w1)). split; [exact H|].
    rewrite (proj1 (status_report_fields m1 w1)). cbn in Hf. rewrite Hf.
    reflexivity.
  - destruct (stop_returns so st) as (msg & H).
    destruct (stop_flag so st) as [Hf Hl].
    destruct (snd (stop so st)) as [m1 w1]. cbn [fst] in *.
    exists msg, (status_report (m1, w1)). split; [exact H|].
    destruct (status_report_fields m1 w1) as (H1 & H2 & _).
    rewrite H1, H2, Hf, Hl. split; reflexivity.
Qed.
